(** * DBackup: the backup strategies of [src/server/backup]

    A shallow embedding of [base.py], [factory.py] and [mysql.py], and the
    properties of the factory and of the MySQL strategy.

    Python values are dynamically typed, so attribute values are modelled by
    a universe [pyval]: [str], [int], [None] (the scalars a SQLAlchemy column
    yields) and the built-in containers.  A [str] is a sequence of Unicode
    code points.  Code that
    may raise lives in an exception monad; code that also touches the process
    (file system, [os.environ], dict objects, the clock, child processes)
    threads a [world]. *)

From Stdlib Require Import ZArith NArith List Ascii String DecimalString.
From stdpp Require Import base decidable option list gmap.

Local Open Scope Z_scope.

(** ** Strings *)

(** A Python [str]: the list of its code points. *)
Definition str : Type := list N.

(** A literal of the source text. *)
Definition lit (s : string) : str :=
  map N_of_ascii (list_ascii_of_string s).

Global Arguments lit : simpl never.

Notation "'s!' x" := (lit x%string) (at level 9, x at level 0, format "'s!' x").

(** [str.isspace] for one character: CPython's [_PyUnicode_IsWhitespace]. *)
Definition isspace (c : N) : bool :=
  ((9 <=? c) && (c <=? 13) || (28 <=? c) && (c <=? 32)
   || (c =? 133) || (c =? 160) || (c =? 5760)
   || (8192 <=? c) && (c <=? 8202)
   || (c =? 8232) || (c =? 8233) || (c =? 8239) || (c =? 8287)
   || (c =? 12288))%N.

(** [s.lstrip()], [s.rstrip()] and [s.strip()] without argument. *)
Fixpoint lstrip (s : str) : str :=
  match s with
  | c :: s' => if isspace c then lstrip s' else s
  | [] => []
  end.

Definition rstrip (s : str) : str := reverse (lstrip (reverse s)).

Definition strip (s : str) : str := rstrip (lstrip s).

(** [s.startswith(p)]. *)
Fixpoint startswith (p s : str) : bool :=
  match p, s with
  | [], _ => true
  | a :: p', b :: s' => (a =? b)%N && startswith p' s'
  | _ :: _, [] => false
  end.

(** [s.endswith(p)]. *)
Definition endswith (p s : str) : bool := startswith (reverse p) (reverse s).

(** [x in s] for two strings: [x] occurs in [s] as a substring. *)
Fixpoint str_contains (x s : str) : bool :=
  startswith x s ||
  match s with
  | [] => false
  | _ :: s' => str_contains x s'
  end.

(** [s.split(sep)] for a separator of one character [c]: the maximal pieces
    between the occurrences of [c], at least one piece. *)
Fixpoint split_on (c : N) (s : str) : list str :=
  match s with
  | [] => [[]]
  | a :: s' =>
      if (a =? c)%N then [] :: split_on c s'
      else match split_on c s' with
           | p :: ps => (a :: p) :: ps
           | [] => [[a]]
           end
  end.

(** The decimal digits of a number, as [str(n)] prints an [int]. *)
Fixpoint str_of_uint (d : Decimal.uint) : str :=
  match d with
  | Decimal.Nil => []
  | Decimal.D0 d => 48%N :: str_of_uint d
  | Decimal.D1 d => 49%N :: str_of_uint d
  | Decimal.D2 d => 50%N :: str_of_uint d
  | Decimal.D3 d => 51%N :: str_of_uint d
  | Decimal.D4 d => 52%N :: str_of_uint d
  | Decimal.D5 d => 53%N :: str_of_uint d
  | Decimal.D6 d => 54%N :: str_of_uint d
  | Decimal.D7 d => 55%N :: str_of_uint d
  | Decimal.D8 d => 56%N :: str_of_uint d
  | Decimal.D9 d => 57%N :: str_of_uint d
  end.

Definition str_of_N (n : N) : str := str_of_uint (N.to_uint n).

Definition str_of_Z (z : Z) : str :=
  match z with
  | Zneg p => 45%N :: str_of_N (Npos p)
  | _ => str_of_N (Z.to_N z)
  end.

Definition isdigit (c : N) : bool := ((48 <=? c) && (c <=? 57))%N.

(** ** Values and exceptions *)

(** The built-in containers. *)
Inductive coll :=
| CList | CTuple | CSet | CFrozenset | CDict.

Global Instance coll_eq_dec : EqDecision coll.
Proof. solve_decision. Defined.

(** A value: a string, an integer, [None], or a built-in container.  A
    container is given by its type, its elements (for a dict, its keys) and
    the text that [str()] gives for it, [None] when that conversion raises;
    the [repr] of the elements, which that text is made of, is not
    modelled.  Objects of classes with methods of their own ([__eq__],
    [__contains__], [__format__]) are outside this universe. *)
#[warnings="-register-all"]
Inductive pyval :=
| VStr (s : str)
| VInt (z : Z)
| VNone
| VSeq (k : coll) (items : list pyval) (shown : option str).

Global Instance pyval_eq_dec : EqDecision pyval.
Proof.
  refine (fix go (x y : pyval) {struct x} : Decision (x = y) :=
    match x, y with
    | VStr a, VStr b => cast_if (decide (a = b))
    | VInt a, VInt b => cast_if (decide (a = b))
    | VNone, VNone => left _
    | VSeq k1 l1 s1, VSeq k2 l2 s2 =>
        cast_if_and3 (decide (k1 = k2))
          (@decide _ (@list_eq_dec _ go l1 l2)) (decide (s1 = s2))
    | _, _ => right _
    end); congruence.
Defined.

Definition is_str (v : pyval) : bool :=
  match v with VStr _ => true | _ => false end.

Definition coll_name (k : coll) : str :=
  match k with
  | CList => s!"list"
  | CTuple => s!"tuple"
  | CSet => s!"set"
  | CFrozenset => s!"frozenset"
  | CDict => s!"dict"
  end.

(** [type(v).__name__]. *)
Definition type_name (v : pyval) : str :=
  match v with
  | VStr _ => s!"str"
  | VInt _ => s!"int"
  | VNone => s!"NoneType"
  | VSeq k _ _ => coll_name k
  end.

(** The bound of [sys.int_max_str_digits], at its default of 4300 digits:
    an [int] of more digits is not converted to a string. *)
Definition int_max_str : Z := 10 ^ 4300.

(** Whether [format(v, "")] gives a text: it raises [ValueError] for an
    [int] of more than 4300 digits, also inside a container. *)
Definition formattable (v : pyval) : bool :=
  match v with
  | VStr _ => true
  | VInt z => Z.abs z <? int_max_str
  | VNone => true
  | VSeq _ _ shown => bool_decide (is_Some shown)
  end.

(** The text of [f"{v}"], that is of [format(v, "")], which is [str(v)] for
    these types, when the conversion gives one. *)
Definition fmt (v : pyval) : str :=
  match v with
  | VStr s => s
  | VInt z => str_of_Z z
  | VNone => s!"None"
  | VSeq _ _ shown => default [] shown
  end.

(** The built-in exception classes that occur, with their base classes. *)
Inductive exn_class :=
| BaseException | KeyboardInterrupt | Exception
| AttributeError | TypeError | ValueError | LookupError | IndexError
| RuntimeError | NotImplementedError
| OSError | FileExistsError | FileNotFoundError | NotADirectoryError
| PermissionError
| SubprocessError | CalledProcessError
| UnicodeError | UnicodeDecodeError.

Global Instance exn_class_eq_dec : EqDecision exn_class.
Proof. solve_decision. Defined.

(** The method resolution order of a class: itself and its ancestors. *)
Definition mro (c : exn_class) : list exn_class :=
  match c with
  | BaseException => [BaseException]
  | KeyboardInterrupt => [KeyboardInterrupt; BaseException]
  | Exception => [Exception; BaseException]
  | AttributeError => [AttributeError; Exception; BaseException]
  | TypeError => [TypeError; Exception; BaseException]
  | ValueError => [ValueError; Exception; BaseException]
  | LookupError => [LookupError; Exception; BaseException]
  | IndexError => [IndexError; LookupError; Exception; BaseException]
  | RuntimeError => [RuntimeError; Exception; BaseException]
  | NotImplementedError =>
      [NotImplementedError; RuntimeError; Exception; BaseException]
  | OSError => [OSError; Exception; BaseException]
  | FileExistsError => [FileExistsError; OSError; Exception; BaseException]
  | FileNotFoundError =>
      [FileNotFoundError; OSError; Exception; BaseException]
  | NotADirectoryError =>
      [NotADirectoryError; OSError; Exception; BaseException]
  | PermissionError => [PermissionError; OSError; Exception; BaseException]
  | SubprocessError => [SubprocessError; Exception; BaseException]
  | CalledProcessError =>
      [CalledProcessError; SubprocessError; Exception; BaseException]
  | UnicodeError => [UnicodeError; ValueError; Exception; BaseException]
  | UnicodeDecodeError =>
      [UnicodeDecodeError; UnicodeError; ValueError; Exception;
       BaseException]
  end.

Definition issubclass (c d : exn_class) : bool := bool_decide (d ∈ mro c).

(** A raised exception.  An instance of [subprocess.CalledProcessError]
    carries the exit status, the command and the captured streams (its
    attributes [returncode], [cmd], [output], [stderr]); an instance of
    another class carries what [str(e)] gives. *)
Inductive exn :=
| Exn (c : exn_class) (msg : str)
| ProcessExn (returncode : Z) (cmd : list pyval) (output stderr : str).

Definition class_of (e : exn) : exn_class :=
  match e with
  | Exn c _ => c
  | ProcessExn _ _ _ _ => CalledProcessError
  end.

(** [isinstance(e, c)], what an [except c] clause tests. *)
Definition isinstance (e : exn) (c : exn_class) : bool :=
  issubclass (class_of e) c.

(** The result of evaluating something that may raise. *)
Inductive outcome (A : Type) :=
| Return (a : A)
| Raise (e : exn).
Arguments Return {A} a.
Arguments Raise {A} e.

(** The value [a] of an expression whose f-strings format [fields]: the
    [ValueError] of a field that cannot be converted is raised instead. *)
Definition formatted {A} (fields : list pyval) (a : A) : outcome A :=
  if forallb formattable fields then Return a
  else Raise (Exn ValueError
                (s!"Exceeds the limit (4300 digits) for integer string "
                 ++ s!"conversion; use sys.set_int_max_str_digits() to "
                 ++ s!"increase the limit")).

Global Instance outcome_ret : MRet outcome := @Return.
Global Instance outcome_bind : MBind outcome := λ A B f m,
  match m with
  | Return a => f a
  | Raise e => Raise e
  end.

(** ** The process and its surroundings *)

(** A node of the file system. *)
Inductive kind :=
| Dir (writable : bool)
| File.

(** An absolute path without [.], [..] or links, as the list of its
    components from the root. *)
Abbreviation path := (list str).

(** The components of a path given as a string. *)
Definition path_of_str (s : str) : path :=
  filter (λ c, c ≠ []) (split_on 47%N s).

(** Where a dict object lives: [os.environ], or an object allocated by the
    program. *)
Inductive loc :=
| Environ
| Obj (n : nat).

(** How a child process ended, as [subprocess.run] with [capture_output] and
    [text] sees it: it ran to an exit status and what it wrote was decoded
    as text; it ran, but what it wrote is not text in the encoding of the
    locale, so that reading it raised [UnicodeDecodeError]; or it could not
    be run and the call raised. *)
Inductive proc_result :=
| Exited (returncode : Z) (stdout stderr : str)
| Undecodable (returncode : Z) (msg : str)
| NotStarted (c : exn_class) (msg : str).

(** One call of [subprocess.run]: its arguments when it was called, and
    what came of it. *)
Record call := {
  call_args : list pyval;
  call_env : gmap str pyval;
  call_result : proc_result;
}.

(** [datetime.datetime], to the second. *)
Record datetime := {
  year : N; month : N; day : N;
  hour : N; minute : N; second : N;
}.

Record world := {
  w_fs : gmap path kind;          (* the file system *)
  w_environ : gmap str str;       (* the contents of [os.environ] *)
  w_objs : list (gmap str pyval); (* the dicts the program allocated *)
  w_clock : datetime;             (* the local time *)
  w_calls : list call;            (* the calls of [subprocess.run], latest first *)
}.

Definition set_fs (f : gmap path kind) (w : world) : world :=
  {| w_fs := f; w_environ := w_environ w; w_objs := w_objs w;
     w_clock := w_clock w; w_calls := w_calls w |}.

Definition set_environ (e : gmap str str) (w : world) : world :=
  {| w_fs := w_fs w; w_environ := e; w_objs := w_objs w;
     w_clock := w_clock w; w_calls := w_calls w |}.

Definition set_objs (o : list (gmap str pyval)) (w : world) : world :=
  {| w_fs := w_fs w; w_environ := w_environ w; w_objs := o;
     w_clock := w_clock w; w_calls := w_calls w |}.

Definition set_calls (c : list call) (w : world) : world :=
  {| w_fs := w_fs w; w_environ := w_environ w; w_objs := w_objs w;
     w_clock := w_clock w; w_calls := c |}.

(** A computation in the process: it returns or raises, and leaves a
    world behind either way. *)
Definition M (A : Type) : Type := world → outcome A * world.

Global Instance M_ret : MRet M := λ A a w, (Return a, w).
Global Instance M_bind : MBind M := λ A B f m w,
  match m w with
  | (Return a, w') => f a w'
  | (Raise e, w') => (Raise e, w')
  end.

(** A pure computation, run in the process. *)
Definition lift {A} (o : outcome A) : M A := λ w, (o, w).

Definition raise {A} (e : exn) : M A := λ w, (Raise e, w).

(** [try: m  except ...: h e]: [h] decides per exception, re-raising what no
    clause matches. *)
Definition try_except {A} (m : M A) (h : exn → M A) : M A := λ w,
  match m w with
  | (Return a, w') => (Return a, w')
  | (Raise e, w') => h e w'
  end.

(** *** [os.path] and [os] *)

(** [os.path.join(a, b)] of [posixpath]. *)
Definition os_path_join (a b : str) : str :=
  if startswith s!"/" b then b
  else if bool_decide (a = []) || endswith s!"/" a then a ++ b
  else a ++ s!"/" ++ b.

(** Whether there is a node at [p]. *)
Definition exists_at (p : path) : M bool := λ w,
  (Return (bool_decide (is_Some (w_fs w !! p))), w).

(** [os.path.exists(p)]. *)
Definition os_path_exists (p : str) : M bool := exists_at (path_of_str p).

(** [os.mkdir] on the components of a path. *)
Definition mkdir (p : path) : M unit := λ w,
  match w_fs w !! p with
  | Some _ => (Raise (Exn FileExistsError s!"[Errno 17] File exists"), w)
  | None =>
      match w_fs w !! removelast p with
      | None =>
          (Raise (Exn FileNotFoundError
                    s!"[Errno 2] No such file or directory"), w)
      | Some File =>
          (Raise (Exn NotADirectoryError s!"[Errno 20] Not a directory"), w)
      | Some (Dir false) =>
          (Raise (Exn PermissionError s!"[Errno 13] Permission denied"), w)
      | Some (Dir true) => (Return tt, set_fs (<[p := Dir true]> (w_fs w)) w)
      end
  end.

(** [os.makedirs(name)] with [exist_ok=False], on the reversed components
    [tail :: rhead] of [name]: make the parent first when it is missing,
    passing over a [FileExistsError] there, then [mkdir(name)]. *)
Fixpoint makedirs (rp : path) : M unit :=
  match rp with
  | [] => mkdir []
  | tail :: rhead =>
      head_exists ← exists_at (reverse rhead);
      (if negb head_exists then
         try_except (makedirs rhead)
           (λ e, if isinstance e FileExistsError then mret tt else raise e)
       else mret tt);;
      mkdir (reverse rp)
  end.

Definition os_makedirs (name : str) : M unit :=
  makedirs (reverse (path_of_str name)).

(** *** Dict objects *)

(** The contents of the dict at [l]. *)
Definition deref (w : world) (l : loc) : gmap str pyval :=
  match l with
  | Environ => VStr <$> w_environ w
  | Obj n => default ∅ (w_objs w !! n)
  end.

(** [d.copy()]: a new dict with the contents of [d]. *)
Definition dict_copy (l : loc) : M loc := λ w,
  (Return (Obj (length (w_objs w))), set_objs (w_objs w ++ [deref w l]) w).

(** [d[k] = v].  [os.environ] takes only strings. *)
Definition dict_setitem (l : loc) (k : str) (v : pyval) : M unit := λ w,
  match l with
  | Environ =>
      match v with
      | VStr s => (Return tt, set_environ (<[k := s]> (w_environ w)) w)
      | _ => (Raise (Exn TypeError
                       (s!"str expected, not " ++ type_name v)), w)
      end
  | Obj n =>
      (Return tt, set_objs (alter (λ d, <[k := v]> d) n (w_objs w)) w)
  end.

(** *** The clock *)

(** [datetime.datetime.now()]. *)
Definition datetime_now : M datetime := λ w, (Return (w_clock w), w).

(** A number in two columns, as [%m], [%d], [%H], [%M], [%S] print it. *)
Definition pad2 (n : N) : str :=
  if (n <? 10)%N then s!"0" ++ str_of_N n else str_of_N n.

(** [d.strftime("%Y%m%d_%H%M%S")]. *)
Definition strftime_Ymd_HMS (d : datetime) : str :=
  str_of_N (year d) ++ pad2 (month d) ++ pad2 (day d) ++ s!"_" ++
  pad2 (hour d) ++ pad2 (minute d) ++ pad2 (second d).

(** ** The program *)

(** The triple [(success, filepath, message)] that [backup] returns. *)
Abbreviation backup_result := (bool * option str * str)%type.

Section backup.

(** [BackupStrategy.BACKUP_DIR], computed once from the place of the
    package: [os.path.abspath(os.path.join(os.path.dirname(__file__),
    '..', '..', '..', 'backups'))]. *)
Variable BACKUP_DIR : str.

(** What the operating system does with a command: given the argument
    vector, the environment and the file system, how the child ends and the
    file system it leaves. *)
Variable spawn :
  list str → gmap str str → gmap path kind → proc_result * gmap path kind.

(** *** [subprocess.run] *)

Definition as_str (v : pyval) : option str :=
  match v with VStr s => Some s | _ => None end.

(** The first value that is not a string among the environment's values
    and the arguments. *)
Definition not_a_str (cmd : list pyval) (env : gmap str pyval)
  : option pyval :=
  head (filter (λ v, is_str v = false) ((map_to_list env).*2 ++ cmd)).

(** [subprocess.run(cmd, env=env, capture_output=True, text=True,
    check=True)]: the arguments and the environment's values must be
    strings; what the child wrote is decoded, which may raise
    [UnicodeDecodeError] whatever the exit status; then a child that exited
    with 0 gives a [CompletedProcess] (its captured streams), and another
    exit status raises [CalledProcessError]. *)
Definition subprocess_run (cmd : list pyval) (env : loc) : M (str * str) :=
  λ w,
    let d := deref w env in
    let '(r, fs') :=
      match not_a_str cmd d with
      | Some v =>
          (NotStarted TypeError
             (s!"expected str, bytes or os.PathLike object, not "
              ++ type_name v), w_fs w)
      | None => spawn (omap as_str cmd) (omap as_str d) (w_fs w)
      end in
    let w' :=
      set_calls ({| call_args := cmd; call_env := d; call_result := r |}
                 :: w_calls w) (set_fs fs' w) in
    match r with
    | Exited code out err =>
        if code =? 0 then (Return (out, err), w')
        else (Raise (ProcessExn code cmd out err), w')
    | Undecodable code msg => (Raise (Exn UnicodeDecodeError msg), w')
    | NotStarted c msg => (Raise (Exn c msg), w')
    end.

(** *** [base.py] *)

Definition ensure_backup_dir : M str :=
  found ← os_path_exists BACKUP_DIR;
  (if negb found then os_makedirs BACKUP_DIR else mret tt);;
  mret BACKUP_DIR.

Definition get_timestamp : M str :=
  now ← datetime_now;
  mret (strftime_Ymd_HMS now).

(** *** [factory.py] *)

(** The concrete strategies. *)
Inductive strategy :=
| MySQLBackup.

(** [a == b] on these values. *)
Definition py_eq (a b : pyval) : bool := bool_decide (a = b).

Definition get_backup_strategy (db_type : pyval) : outcome strategy :=
  if py_eq db_type (VStr s!"mysql") then
    Return MySQLBackup
  else if py_eq db_type (VStr s!"postgresql") then
    Raise (Exn NotImplementedError
             s!"PostgreSQL Backup noch nicht implementiert.")
  else if py_eq db_type (VStr s!"mongodb") then
    Raise (Exn NotImplementedError
             s!"MongoDB Backup noch nicht implementiert.")
  else
    message ← formatted [db_type]
                (s!"Unbekannter Datenbank-Typ: " ++ fmt db_type);
    Raise (Exn ValueError message).

(** *** [mysql.py] *)

(** The [db_config] object: its class name and its attributes, [None] for
    one it does not have. *)
Record db_config := {
  config_class : str;
  db_host : option pyval;
  db_port : option pyval;
  db_user : option pyval;
  db_password : option pyval;
  db_name : option pyval;
}.

(** [db_config.name], given the attribute's slot. *)
Definition getattr (cfg : db_config) (slot : option pyval) (name : str)
  : outcome pyval :=
  match slot with
  | Some v => Return v
  | None =>
      Raise (Exn AttributeError
               (s!"'" ++ config_class cfg ++ s!"' object has no attribute '"
                ++ name ++ s!"'"))
  end.

(** [x in v] for a string [x]: a substring of a string, an element of a
    container. *)
Definition py_in (x : str) (v : pyval) : outcome bool :=
  match v with
  | VStr s => Return (str_contains x s)
  | VSeq _ items _ => Return (existsb (λ item, py_eq item (VStr x)) items)
  | _ =>
      Raise (Exn TypeError
               (s!"argument of type '" ++ type_name v
                ++ s!"' is not iterable"))
  end.

(** [v.split(',')]. *)
Definition py_split_comma (v : pyval) : outcome (list str) :=
  match v with
  | VStr s => Return (split_on 44%N s)
  | _ =>
      Raise (Exn AttributeError
               (s!"'" ++ type_name v
                ++ s!"' object has no attribute 'split'"))
  end.

(** [l[0]]. *)
Definition py_first (l : list str) : outcome str :=
  match l with
  | x :: _ => Return x
  | [] => Raise (Exn IndexError s!"list index out of range")
  end.

(** Line 17: [db_name.split(',')[0].strip() if ',' in db_name else
    db_name]. *)
Definition target_db (db_name : pyval) : outcome pyval :=
  has_comma ← py_in s!"," db_name;
  if has_comma : bool then
    parts ← py_split_comma db_name;
    first ← py_first parts;
    mret (VStr (strip first))
  else mret db_name.

(** Line 22. *)
Definition filename (target_db : pyval) (timestamp : str) : str :=
  s!"backup_mysql_" ++ fmt target_db ++ s!"_" ++ timestamp ++ s!".sql".

(** Lines 26 to 34. *)
Definition cmd (host port user : pyval) (filepath : str) (target_db : pyval)
  : list pyval :=
  [ VStr s!"mariadb-dump";
    VStr (s!"-h" ++ fmt host);
    VStr (s!"-P" ++ fmt port);
    VStr (s!"-u" ++ fmt user);
    VStr (s!"--result-file=" ++ filepath);
    VStr s!"--single-transaction";
    target_db ].

Definition backup (self : strategy) (cfg : db_config) : M backup_result :=
  ensure_backup_dir;;
  host ← lift (getattr cfg (db_host cfg) s!"db_host");
  port ← lift (getattr cfg (db_port cfg) s!"db_port");
  user ← lift (getattr cfg (db_user cfg) s!"db_user");
  password ← lift (getattr cfg (db_password cfg) s!"db_password");
  db_name ← lift (getattr cfg (db_name cfg) s!"db_name");
  target_db ← lift (target_db db_name);
  timestamp ← get_timestamp;
  filename ← lift (formatted [target_db] (filename target_db timestamp));
  let filepath := os_path_join BACKUP_DIR filename in
  cmd ← lift (formatted [host; port; user]
                (cmd host port user filepath target_db));
  env ← dict_copy Environ;
  dict_setitem env s!"MYSQL_PWD" password;;
  try_except
    (subprocess_run cmd env;;
     mret (true, Some filepath, s!"Backup erfolgreich erstellt."))
    (λ e,
       match e with
       | ProcessExn _ _ _ stderr =>
           let error_msg := s!"Fehler beim Erstellen des Backups: " ++ stderr in
           mret (false, None, error_msg)
       | Exn c msg =>
           if issubclass c Exception then mret (false, None, msg)
           else raise e
       end).

End backup.

(** * The vocabulary of the statements *)

(** [t] is [s] with the white space around it removed. *)
Definition trimmed (s t : str) : Prop :=
  ∃ l r, s = l ++ t ++ r ∧
         Forall (λ c, isspace c = true) l ∧
         Forall (λ c, isspace c = true) r ∧
         isspace <$> head t ≠ Some true ∧
         isspace <$> last t ≠ Some true.

(** From [w] to [w'] nothing but the file system changed. *)
Definition only_fs (w w' : world) : Prop :=
  w_environ w' = w_environ w ∧ w_objs w' = w_objs w ∧
  w_clock w' = w_clock w ∧ w_calls w' = w_calls w.

(** The environment [backup] builds for the child: the contents of
    [os.environ] with [MYSQL_PWD] set. *)
Definition child_env (w : world) (password : pyval) : gmap str pyval :=
  <[s!"MYSQL_PWD" := password]> (VStr <$> w_environ w).

(** The config with another password. *)
Definition with_password (cfg : db_config) (password : pyval) : db_config :=
  {| config_class := config_class cfg;
     db_host := db_host cfg; db_port := db_port cfg; db_user := db_user cfg;
     db_password := Some password; db_name := db_name cfg |}.

(** A date and time the clock gives: a year of four digits and the
    ranges of [datetime]'s fields. *)
Definition clock_ok (d : datetime) : Prop :=
  (1000 ≤ year d ≤ 9999 ∧ 1 ≤ month d ≤ 12 ∧ 1 ≤ day d ≤ 31 ∧
   hour d < 24 ∧ minute d < 60 ∧ second d < 60)%N.

(** [n] decimal digits. *)
Definition digits (n : nat) (s : str) : bool :=
  bool_decide (length s = n) && forallb isdigit s.

(** The outcome of the child for a command and an environment: a value that
    is not a string makes the call fail before a child is made. *)
Definition child
    (spawn : list str → gmap str str → gmap path kind
             → proc_result * gmap path kind)
    (argv : list pyval) (env : gmap str pyval) (w : world)
  : proc_result * gmap path kind :=
  match not_a_str argv env with
  | Some v =>
      (NotStarted TypeError
         (s!"expected str, bytes or os.PathLike object, not "
          ++ type_name v), w_fs w)
  | None => spawn (omap as_str argv) (omap as_str env) (w_fs w)
  end.

(** What [backup] makes of the child's end. *)
Definition verdict (filepath : str) (r : proc_result)
  : outcome backup_result :=
  match r with
  | Exited code out err =>
      if code =? 0 then
        Return (true, Some filepath, s!"Backup erfolgreich erstellt.")
      else
        Return (false, None, s!"Fehler beim Erstellen des Backups: " ++ err)
  | Undecodable code msg => Return (false, None, msg)
  | NotStarted c msg =>
      if issubclass c Exception then Return (false, None, msg)
      else Raise (Exn c msg)
  end.

(** The path of the dump file for a target database at a time. *)
Definition dump_path (BACKUP_DIR target : str) (now : datetime) : str :=
  os_path_join BACKUP_DIR
    (s!"backup_mysql_" ++ target ++ s!"_" ++ strftime_Ymd_HMS now
     ++ s!".sql").

(** [a < b] on strings: the order of the first code point that differs, a
    proper prefix coming first. *)
Fixpoint str_lt (a b : str) : bool :=
  match a, b with
  | _, [] => false
  | [], _ :: _ => true
  | x :: a', y :: b' => (x <? y)%N || (x =? y)%N && str_lt a' b'
  end.

(** [d1 < d2] on [datetime]: earlier in time. *)
Definition datetime_lt (d1 d2 : datetime) : Prop :=
  (year d1 < year d2 ∨ year d1 = year d2 ∧
   (month d1 < month d2 ∨ month d1 = month d2 ∧
    (day d1 < day d2 ∨ day d1 = day d2 ∧
     (hour d1 < hour d2 ∨ hour d1 = hour d2 ∧
      (minute d1 < minute d2 ∨ minute d1 = minute d2 ∧
       second d1 < second d2)))))%N.

(** ** Sample data *)

Module Sample.

Definition dir : str := s!"/app/backups".

(** [/] and [/app], writable; no [/app/backups] yet. *)
Definition fs : gmap path kind :=
  <[ [s!"app"] := Dir true ]> (<[ [] := Dir true ]> ∅).

(** The same with [/app] read-only. *)
Definition fs_readonly : gmap path kind :=
  <[ [s!"app"] := Dir false ]> (<[ [] := Dir true ]> ∅).

Definition clock : datetime :=
  {| year := 2024; month := 3; day := 9;
     hour := 14; minute := 5; second := 0 |}.

Definition world_of (f : gmap path kind) : world :=
  {| w_fs := f; w_environ := <[ s!"PATH" := s!"/usr/bin" ]> ∅;
     w_objs := []; w_clock := clock; w_calls := [] |}.

Definition w : world := world_of fs.
Definition w_readonly : world := world_of fs_readonly.

Definition config (password name : pyval) : db_config :=
  {| config_class := s!"Database";
     db_host := Some (VStr s!"localhost"); db_port := Some (VInt 3306);
     db_user := Some (VStr s!"root"); db_password := Some password;
     db_name := Some name |}.

Definition cfg : db_config := config (VStr s!"secret") (VStr s!"appdb").

(** A config without [db_user]. *)
Definition cfg_no_user : db_config :=
  {| config_class := s!"Database";
     db_host := Some (VStr s!"localhost"); db_port := Some (VInt 3306);
     db_user := None; db_password := Some (VStr s!"secret");
     db_name := Some (VStr s!"appdb") |}.

(** A dump that exits with 0 and writes no file. *)
Definition exit0 (argv : list str) (env : gmap str str)
    (f : gmap path kind) : proc_result * gmap path kind :=
  (Exited 0 [] [], f).

(** A dump that the server turns away. *)
Definition denied (argv : list str) (env : gmap str str)
    (f : gmap path kind) : proc_result * gmap path kind :=
  (Exited 1 [] s!"Access denied", f).

(** No [mariadb-dump] on the path. *)
Definition missing (argv : list str) (env : gmap str str)
    (f : gmap path kind) : proc_result * gmap path kind :=
  (NotStarted FileNotFoundError
     s!"[Errno 2] No such file or directory: 'mariadb-dump'", f).

Definition dump_file : str :=
  s!"/app/backups/backup_mysql_appdb_20240309_140500.sql".

End Sample.

Module Sample2.

(** A backup directory two levels below a directory that is not there. *)
Definition deep_dir : str := s!"/srv/data/backups".

(** One second after [Sample.clock]. *)
Definition clock_later : datetime :=
  {| year := 2024; month := 3; day := 9;
     hour := 14; minute := 5; second := 1 |}.

Definition w_later : world :=
  {| w_fs := Sample.fs; w_environ := ∅; w_objs := [];
     w_clock := clock_later; w_calls := [] |}.

(** A parent process that has a [MYSQL_PWD] of its own. *)
Definition w_with_pwd : world :=
  {| w_fs := Sample.fs;
     w_environ := <[ s!"MYSQL_PWD" := s!"old" ]> ∅;
     w_objs := []; w_clock := Sample.clock; w_calls := [] |}.

(** The text of the [UnicodeDecodeError] for a first byte [0xff]. *)
Definition decode_error : str :=
  s!"'utf-8' codec can't decode byte 0xff in position 0: invalid start byte".

(** A dump that exits with 0, or with 1, after writing bytes that are not
    text. *)
Definition garbled0 (argv : list str) (env : gmap str str)
    (f : gmap path kind) : proc_result * gmap path kind :=
  (Undecodable 0 decode_error, f).

Definition garbled1 (argv : list str) (env : gmap str str)
    (f : gmap path kind) : proc_result * gmap path kind :=
  (Undecodable 1 decode_error, f).


(** The user interrupts the dump. *)
Definition interrupted (argv : list str) (env : gmap str str)
    (f : gmap path kind) : proc_result * gmap path kind :=
  (NotStarted KeyboardInterrupt [], f).

(** What the operating system is given, for the record: the child's
    standard error tells the value of [MYSQL_PWD] it was started with. *)
Definition echo_pwd (argv : list str) (env : gmap str str)
    (f : gmap path kind) : proc_result * gmap path kind :=
  (Exited 1 [] (default s!"unset" (env !! s!"MYSQL_PWD")), f).

End Sample2.

(** * Properties *)

(** ** Strings *)

Section strings.

Implicit Types (c : N) (s t : str).

Lemma startswith_char c s : startswith [c] s = true ↔ head s = Some c.
Proof.
  destruct s as [|a s]; simpl; [split; discriminate|].
  rewrite andb_true_r, N.eqb_eq. split; congruence.
Qed.

Lemma str_contains_char c s : str_contains [c] s = true ↔ c ∈ s.
Proof.
  induction s as [|a s IH].
  - simpl. split; [discriminate|]. intros H. inversion H.
  - change (str_contains [c] (a :: s))
      with (startswith [c] (a :: s) || str_contains [c] s).
    rewrite orb_true_iff, startswith_char, IH, elem_of_cons. simpl.
    split; (intros [H|H]; [left; congruence|by right]).
Qed.

Lemma split_on_absent c s : c ∉ s → split_on c s = [s].
Proof.
  induction s as [|a s IH]; intros Hc; [done|].
  apply not_elem_of_cons in Hc as [Hne Hc]. simpl.
  destruct (N.eqb_spec a c) as [->|_]; [done|]. by rewrite IH.
Qed.

Lemma split_on_present c s :
  c ∈ s →
  ∃ pre post rest,
    s = pre ++ (c :: post) ∧ (c ∉ pre) ∧ split_on c s = pre :: rest.
Proof.
  induction s as [|a s IH]; intros Hc; [inversion Hc|]. simpl.
  destruct (N.eqb_spec a c) as [->|Hne].
  - exists [], s, (split_on c s). split_and!; [done| |done].
    intros H. inversion H.
  - apply elem_of_cons in Hc as [->|Hc]; [done|].
    destruct (IH Hc) as (pre & post & rest & -> & Hpre & ->).
    exists (a :: pre), post, rest. split_and!; [done| |done].
    rewrite not_elem_of_cons. split; congruence.
Qed.

(** What the characters stripped on the left are, and where stripping
    stops. *)
Lemma lstrip_spec s :
  ∃ l, s = l ++ lstrip s ∧ Forall (λ c, isspace c = true) l ∧
       isspace <$> head (lstrip s) ≠ Some true.
Proof.
  induction s as [|a s (l & Hs & Hl & Hh)].
  - by exists [].
  - simpl. destruct (isspace a) eqn:Ha.
    + exists (a :: l). split_and!; [simpl; congruence|by constructor|done].
    + exists []. split_and!; [done|constructor|simpl; congruence].
Qed.

Lemma rstrip_spec s :
  ∃ r, s = rstrip s ++ r ∧ Forall (λ c, isspace c = true) r ∧
       isspace <$> last (rstrip s) ≠ Some true.
Proof.
  unfold rstrip. destruct (lstrip_spec (reverse s)) as (l & Hs & Hl & Hh).
  exists (reverse l). split_and!.
  - by rewrite <- reverse_app, <- Hs, reverse_involutive.
  - by apply Forall_reverse.
  - by rewrite last_reverse.
Qed.

Lemma digits_app n m s t :
  digits n s = true → digits m t = true → digits (n + m) (s ++ t) = true.
Proof.
  unfold digits. rewrite !andb_true_iff, !bool_decide_eq_true.
  intros [<- Hs] [<- Ht]. by rewrite length_app, forallb_app, Hs, Ht.
Qed.

Lemma pad2_digits (n : N) : (n < 100)%N → digits 2 (pad2 n) = true.
Proof.
  intros Hn.
  assert (forallb (λ k, digits 2 (pad2 (N.of_nat k))) (seq 0 100) = true)
    as Hall by (by vm_compute).
  rewrite forallb_forall in Hall.
  rewrite <- (N2Nat.id n). apply Hall, in_seq. lia.
Qed.

Lemma year_digits (y : N) :
  (1000 ≤ y ≤ 9999)%N → digits 4 (str_of_N y) = true.
Proof.
  intros Hy.
  assert (forallb (λ k, digits 4 (str_of_N (N.of_nat k + 1000)))
            (seq 0 (N.to_nat 9000)) = true) as Hall by (by vm_compute).
  rewrite forallb_forall in Hall.
  replace y with (N.of_nat (N.to_nat (y - 1000)) + 1000)%N by lia.
  apply Hall, in_seq. lia.
Qed.

(** The time stamp of a clock value is eight digits, an underscore and six
    digits. *)
Lemma strftime_shape (d : datetime) :
  clock_ok d →
  ∃ date time,
    strftime_Ymd_HMS d = date ++ s!"_" ++ time ∧
    digits 8 date = true ∧ digits 6 time = true.
Proof.
  intros (Hy & Hm & Hd & HH & HM & HS).
  exists (str_of_N (year d) ++ pad2 (month d) ++ pad2 (day d)),
    (pad2 (hour d) ++ pad2 (minute d) ++ pad2 (second d)).
  split_and!.
  - unfold strftime_Ymd_HMS. by rewrite <- !app_assoc.
  - apply (digits_app 4 4); [by apply year_digits|].
    apply (digits_app 2 2); apply pad2_digits; lia.
  - apply (digits_app 2 4); [apply pad2_digits; lia|].
    apply (digits_app 2 2); apply pad2_digits; lia.
Qed.

(** Joining a directory and a name that does not start with a slash. *)
Lemma os_path_join_relative (a b : str) :
  startswith s!"/" b = false →
  os_path_join a b = a ++ s!"/" ++ b ∨ os_path_join a b = a ++ b.
Proof.
  intros Hb. unfold os_path_join. rewrite Hb.
  destruct (_ || _); auto.
Qed.

End strings.

(** ** The factory *)

(** C1. For every engine identifier string the factory does exactly one of
    four things: for "mysql" it returns the MySQL strategy; for
    "postgresql" and for "mongodb" it raises [NotImplementedError]; for
    every other string it raises [ValueError] (the error for an engine that
    is not recognised), a class that neither derives from
    [NotImplementedError] nor is derived from by it. *)
Theorem get_backup_strategy_cases (db_type : str) :
  ((db_type = s!"mysql" ∧
    get_backup_strategy (VStr db_type) = Return MySQLBackup)
   ∨ (db_type = s!"postgresql" ∧
      get_backup_strategy (VStr db_type)
      = Raise (Exn NotImplementedError
                 s!"PostgreSQL Backup noch nicht implementiert."))
   ∨ (db_type = s!"mongodb" ∧
      get_backup_strategy (VStr db_type)
      = Raise (Exn NotImplementedError
                 s!"MongoDB Backup noch nicht implementiert."))
   ∨ ((db_type ∉ [s!"mysql"; s!"postgresql"; s!"mongodb"]) ∧
      get_backup_strategy (VStr db_type)
      = Raise (Exn ValueError (s!"Unbekannter Datenbank-Typ: " ++ db_type))))
  ∧ issubclass ValueError NotImplementedError = false
  ∧ issubclass NotImplementedError ValueError = false.
Proof.
  split; [|by vm_compute].
  unfold get_backup_strategy, py_eq.
  repeat case_bool_decide; simplify_eq; auto.
  do 3 right. split; [|done].
  rewrite !not_elem_of_cons. split_and!; try congruence.
  apply not_elem_of_nil.
Qed.

(** ** The target database *)

Lemma strip_trimmed (s : str) : trimmed s (strip s).
Proof.
  unfold strip.
  destruct (lstrip_spec s) as (l & Hs & Hl & Hh).
  destruct (rstrip_spec (lstrip s)) as (r & Ht & Hr & Hlast).
  exists l, r. split_and!; [congruence|done|done| |done].
  destruct (rstrip (lstrip s)) as [|a t] eqn:Et; [done|].
  by rewrite Ht in Hh.
Qed.

(** C4. For every string [db_name]: when it contains a comma, the target is
    the part before the first comma with the white space around it removed;
    otherwise the target is [db_name] itself.  So "appdb,logsdb" gives
    "appdb", and "appdb" gives "appdb". *)
Theorem target_db_spec (db_name : str) :
  ((44%N ∈ db_name ∧
    ∃ pre post t,
      db_name = pre ++ s!"," ++ post ∧ (44%N ∉ pre) ∧
      trimmed pre t ∧ target_db (VStr db_name) = Return (VStr t))
   ∨ ((44%N ∉ db_name) ∧ target_db (VStr db_name) = Return (VStr db_name)))
  ∧ target_db (VStr s!"appdb,logsdb") = Return (VStr s!"appdb")
  ∧ target_db (VStr s!"appdb") = Return (VStr s!"appdb").
Proof.
  split; [|by vm_compute].
  unfold target_db, py_in. simpl.
  destruct (decide (44%N ∈ db_name)) as [Hin|Hnot].
  - left. split; [done|].
    destruct (split_on_present _ _ Hin) as (pre & post & rest & Hs & Hpre & Hsp).
    exists pre, post, (strip pre). split_and!; [done|done|apply strip_trimmed|].
    apply str_contains_char in Hin.
    change (lit ",") with [44%N]. rewrite Hin. simpl. by rewrite Hsp.
  - right. split; [done|].
    destruct (str_contains s!"," db_name) eqn:E; [|done].
    change (lit ",") with [44%N] in E. by apply str_contains_char in E.
Qed.

(** ** The monad *)

Lemma bind_Return {A B} (m : M A) (f : A → M B) w a w1 :
  m w = (Return a, w1) → (m ≫= f) w = f a w1.
Proof. unfold mbind, M_bind. by intros ->. Qed.

Lemma bind_Raise {A B} (m : M A) (f : A → M B) w e w1 :
  m w = (Raise e, w1) → (m ≫= f) w = (Raise e, w1).
Proof. unfold mbind, M_bind. by intros ->. Qed.

Lemma bind_lift_Return {A B} (o : outcome A) (f : A → M B) w a :
  o = Return a → (lift o ≫= f) w = f a w.
Proof. by intros ->. Qed.

Lemma bind_lift_Raise {A B} (o : outcome A) (f : A → M B) w e :
  o = Raise e → (lift o ≫= f) w = (Raise e, w).
Proof. by intros ->. Qed.

Lemma bind_lift_Return' {A B} (a : A) (f : A → M B) w :
  (lift (Return a) ≫= f) w = f a w.
Proof. done. Qed.

Lemma bind_lift_Raise' {A B} e (f : A → M B) w :
  (lift (Raise e) ≫= f) w = (Raise e, w).
Proof. done. Qed.

Lemma bind_get_timestamp {B} (f : str → M B) w :
  (get_timestamp ≫= f) w = f (strftime_Ymd_HMS (w_clock w)) w.
Proof. done. Qed.

(** ** The file system *)

Global Instance only_fs_refl : Reflexive only_fs.
Proof. by intros w. Qed.

Global Instance only_fs_trans : Transitive only_fs.
Proof.
  intros w1 w2 w3 (?&?&?&?) (?&?&?&?). unfold only_fs. split_and!; congruence.
Qed.

Lemma mkdir_only_fs p w : only_fs w (mkdir p w).2.
Proof.
  unfold mkdir. destruct (w_fs w !! p); [done|].
  destruct (w_fs w !! removelast p) as [[[]|]|]; done.
Qed.

Lemma mkdir_Return p w u w1 :
  mkdir p w = (Return u, w1) → w_fs w1 !! p = Some (Dir true).
Proof.
  unfold mkdir. destruct (w_fs w !! p); [done|].
  destruct (w_fs w !! removelast p) as [[[]|]|]; try done.
  intros [= _ <-]. simpl. apply lookup_insert_eq.
Qed.

Lemma makedirs_only_fs rp w : only_fs w (makedirs rp w).2.
Proof.
  revert w. induction rp as [|tail rhead IH]; intros w.
  - apply mkdir_only_fs.
  - simpl. unfold mbind, M_bind, exists_at.
    destruct (negb _).
    + unfold try_except. specialize (IH w).
      destruct (makedirs rhead w) as [[[]|e] w1]; simpl in IH.
      * etrans; [exact IH|apply mkdir_only_fs].
      * destruct (isinstance e FileExistsError); simpl; [|done].
        etrans; [exact IH|apply mkdir_only_fs].
    + simpl. apply mkdir_only_fs.
Qed.

Lemma makedirs_Return rp w u w1 :
  makedirs rp w = (Return u, w1) → w_fs w1 !! reverse rp = Some (Dir true).
Proof.
  destruct rp as [|tail rhead]; simpl.
  - intros H. by eapply mkdir_Return.
  - unfold mbind, M_bind.
    destruct (exists_at (reverse rhead) w) as [[b|?] w2]; [|done].
    match goal with |- context [?m w2] => destruct (m w2) as [[[]|?] w3] end;
      [|done].
    intros H. by eapply mkdir_Return.
Qed.

Section properties.

Variable BACKUP_DIR : str.
Variable spawn :
  list str → gmap str str → gmap path kind → proc_result * gmap path kind.

Local Abbreviation ensure := (ensure_backup_dir BACKUP_DIR).
Local Abbreviation mysql_backup := (backup BACKUP_DIR spawn MySQLBackup).
Local Abbreviation run_child := (child spawn).

(** ** The backup directory *)

Lemma ensure_present w :
  is_Some (w_fs w !! path_of_str BACKUP_DIR) →
  ensure w = (Return BACKUP_DIR, w).
Proof.
  intros H. unfold ensure_backup_dir, os_path_exists, exists_at.
  unfold mbind, M_bind. by rewrite bool_decide_true.
Qed.

Lemma ensure_Return w p w1 :
  ensure w = (Return p, w1) →
  p = BACKUP_DIR ∧
  (w1 = w ∧ is_Some (w_fs w !! path_of_str BACKUP_DIR)
   ∨ w_fs w !! path_of_str BACKUP_DIR = None ∧
     w_fs w1 !! path_of_str BACKUP_DIR = Some (Dir true)).
Proof.
  unfold ensure_backup_dir, os_path_exists, exists_at, os_makedirs.
  unfold mbind, M_bind. case_bool_decide as Hex; simpl.
  - intros [= <- <-]. auto.
  - destruct (makedirs _ w) as [[[]|e] w2] eqn:Hmk; [|done].
    intros [= <- <-]. split; [done|]. right.
    apply makedirs_Return in Hmk. rewrite reverse_involutive in Hmk.
    split; [|done]. by apply eq_None_not_Some.
Qed.

Lemma ensure_only_fs w : only_fs w (ensure w).2.
Proof.
  unfold ensure_backup_dir, os_path_exists, exists_at, os_makedirs.
  unfold mbind, M_bind. case_bool_decide as Hex; simpl; [done|].
  pose proof (makedirs_only_fs (reverse (path_of_str BACKUP_DIR)) w) as H.
  by destruct (makedirs _ w) as [[[]|e] w2].
Qed.

(** C8, amended. Calling [ensure_backup_dir] twice in succession: when the
    path already exists the first call returns it and changes nothing; and
    whenever the first call returns, it returns [BACKUP_DIR], the path
    exists afterwards (as a directory when the call made it), and the
    second call returns the same path and leaves the world, so the file
    system, as it is. *)
Theorem ensure_backup_dir_twice (w : world) :
  (is_Some (w_fs w !! path_of_str BACKUP_DIR) →
   ensure w = (Return BACKUP_DIR, w))
  ∧ (∀ p w1,
       ensure w = (Return p, w1) →
       p = BACKUP_DIR ∧
       is_Some (w_fs w1 !! path_of_str BACKUP_DIR) ∧
       (w_fs w !! path_of_str BACKUP_DIR = None →
        w_fs w1 !! path_of_str BACKUP_DIR = Some (Dir true)) ∧
       ensure w1 = (Return p, w1)).
Proof.
  split; [apply ensure_present|].
  intros p w1 H. apply ensure_Return in H as [-> Hex].
  assert (is_Some (w_fs w1 !! path_of_str BACKUP_DIR)) as Hs.
  { destruct Hex as [[-> ?]|[_ ->]]; eauto. }
  split_and!; [done|done| |by apply ensure_present].
  intros Hn. destruct Hex as [[_ [? ?]]|[_ ?]]; [congruence|done].
Qed.

(** ** A run of [backup] up to the call of the child *)

Lemma target_db_str (name : str) :
  ∃ t, target_db (VStr name) = Return (VStr t).
Proof.
  unfold target_db, py_in. simpl.
  destruct (str_contains _ name) eqn:E; [|by eexists].
  change (lit ",") with [44%N] in E. apply str_contains_char in E.
  destruct (split_on_present _ _ E) as (pre & post & rest & _ & _ & ->).
  by eexists.
Qed.


Lemma target_db_Return (v t : pyval) :
  target_db v = Return t →
  (∃ name s, v = VStr name ∧ t = VStr s)
  ∨ (∃ k items shown, v = VSeq k items shown ∧ t = v).
Proof.
  destruct v as [name|z| |k items shown]; try done.
  - destruct (target_db_str name) as [s Hs]. rewrite Hs.
    intros [= <-]. left. by exists name, s.
  - unfold target_db, py_in. cbn.
    destruct (existsb _ items); cbn; [done|].
    intros [= <-]. right. by exists k, items, shown.
Qed.

Lemma backup_run cfg w w1 host port user password name target :
  ensure w = (Return BACKUP_DIR, w1) →
  db_host cfg = Some host → db_port cfg = Some port →
  db_user cfg = Some user → db_password cfg = Some password →
  db_name cfg = Some name → target_db name = Return target →
  forallb formattable [target] = true →
  forallb formattable [host; port; user] = true →
  let filepath :=
    os_path_join BACKUP_DIR
      (filename target (strftime_Ymd_HMS (w_clock w1))) in
  let argv := cmd host port user filepath target in
  let env := child_env w1 password in
  let r := run_child argv env w1 in
  mysql_backup cfg w =
    (verdict filepath r.1,
     {| w_fs := r.2; w_environ := w_environ w1;
        w_objs := w_objs w1 ++ [env]; w_clock := w_clock w1;
        w_calls := {| call_args := argv; call_env := env;
                      call_result := r.1 |} :: w_calls w1 |}).
Proof.
  intros Hens Hh Hp Hu Hpw Hn Ht Hf1 Hf2. cbv zeta.
  unfold backup.
  rewrite (bind_Return _ _ _ _ _ Hens).
  rewrite Hh, Hp, Hu, Hpw, Hn. cbn [getattr].
  rewrite !bind_lift_Return', Ht, bind_lift_Return'.
  rewrite bind_get_timestamp. unfold formatted.
  rewrite Hf1, bind_lift_Return', Hf2, bind_lift_Return'.
  unfold dict_copy, dict_setitem.
  unfold mbind, M_bind, mret, M_ret, try_except, subprocess_run. cbn.
  rewrite alter_app_r_alt by done. rewrite Nat.sub_diag. cbn.
  rewrite lookup_app_r by done. rewrite Nat.sub_diag. cbn.
  fold (child_env w1 password).
  unfold child.
  destruct (not_a_str _ _) as [v|]; cbn.
  - done.
  - destruct (spawn _ _ _) as [[code out err|code msg|c msg] fs']; cbn.
    + by destruct (code =? 0).
    + done.
    + by destruct (issubclass c Exception).
Qed.

Lemma backup_ensure_Raise cfg w e w1 :
  ensure w = (Raise e, w1) → mysql_backup cfg w = (Raise e, w1).
Proof. intros H. unfold backup. by rewrite (bind_Raise _ _ _ _ _ H). Qed.

Lemma backup_attr_missing cfg w d w1 :
  ensure w = (Return d, w1) →
  db_host cfg = None ∨ db_port cfg = None ∨ db_user cfg = None ∨
  db_password cfg = None ∨ db_name cfg = None →
  ∃ msg, mysql_backup cfg w = (Raise (Exn AttributeError msg), w1).
Proof.
  intros Hens Hmiss. unfold backup. rewrite (bind_Return _ _ _ _ _ Hens).
  destruct (db_host cfg), (db_port cfg), (db_user cfg), (db_password cfg),
    (db_name cfg); try (exfalso; intuition discriminate); cbn [getattr];
    rewrite ?bind_lift_Return', bind_lift_Raise'; by eexists.
Qed.

Lemma backup_target_Raise cfg w d w1 host port user password name e :
  ensure w = (Return d, w1) →
  db_host cfg = Some host → db_port cfg = Some port →
  db_user cfg = Some user → db_password cfg = Some password →
  db_name cfg = Some name → target_db name = Raise e →
  mysql_backup cfg w = (Raise e, w1).
Proof.
  intros Hens Hh Hp Hu Hpw Hn Ht. unfold backup.
  rewrite (bind_Return _ _ _ _ _ Hens), Hh, Hp, Hu, Hpw, Hn. cbn [getattr].
  by rewrite !bind_lift_Return', Ht, bind_lift_Raise'.
Qed.

(** A value that cannot be formatted stops the run before the call. *)
Lemma backup_format_Raise cfg w d w1 host port user password name target :
  ensure w = (Return d, w1) →
  db_host cfg = Some host → db_port cfg = Some port →
  db_user cfg = Some user → db_password cfg = Some password →
  db_name cfg = Some name → target_db name = Return target →
  forallb formattable [target] && forallb formattable [host; port; user]
  = false →
  ∃ msg, mysql_backup cfg w = (Raise (Exn ValueError msg), w1).
Proof.
  intros Hens Hh Hp Hu Hpw Hn Ht Hf. unfold backup.
  rewrite (bind_Return _ _ _ _ _ Hens), Hh, Hp, Hu, Hpw, Hn. cbn [getattr].
  rewrite !bind_lift_Return', Ht, bind_lift_Return'.
  rewrite bind_get_timestamp. unfold formatted.
  destruct (forallb formattable [target]).
  - rewrite bind_lift_Return'. rewrite andb_true_l in Hf. rewrite Hf.
    rewrite bind_lift_Raise'. by eexists.
  - rewrite bind_lift_Raise'. by eexists.
Qed.

(** Every run either raises before the child is called, in the world that
    [ensure_backup_dir] left, or gets as far as the call. *)
Lemma backup_cases cfg w :
  (∃ e, mysql_backup cfg w = (Raise e, (ensure w).2))
  ∨ (∃ w1 host port user password name target,
       ensure w = (Return BACKUP_DIR, w1) ∧
       db_host cfg = Some host ∧ db_port cfg = Some port ∧
       db_user cfg = Some user ∧ db_password cfg = Some password ∧
       db_name cfg = Some name ∧
       target_db name = Return target ∧
       forallb formattable [target] = true ∧
       forallb formattable [host; port; user] = true).
Proof.
  destruct (ensure w) as [[d|e] w1] eqn:Hens.
  2: { left. exists e. by apply backup_ensure_Raise. }
  destruct (ensure_Return _ _ _ Hens) as [-> _].
  destruct (db_host cfg) as [host|] eqn:Hh;
    [|left; edestruct backup_attr_missing as [msg ->]; eauto].
  destruct (db_port cfg) as [port|] eqn:Hp;
    [|left; edestruct backup_attr_missing as [msg ->]; eauto].
  destruct (db_user cfg) as [user|] eqn:Hu;
    [|left; edestruct backup_attr_missing as [msg ->]; eauto].
  destruct (db_password cfg) as [password|] eqn:Hpw;
    [|left; edestruct backup_attr_missing as [msg ->]; eauto 6].
  destruct (db_name cfg) as [name|] eqn:Hn;
    [|left; edestruct backup_attr_missing as [msg ->]; eauto 6].
  destruct (target_db name) as [target|e] eqn:Ht.
  2: { left. exists e. simpl. by eapply backup_target_Raise. }
  destruct (forallb formattable [target]
            && forallb formattable [host; port; user]) eqn:Hf.
  - apply andb_true_iff in Hf as [Hf1 Hf2].
    right. by exists w1, host, port, user, password, name, target.
  - left. edestruct backup_format_Raise as [msg ->]; eauto.
Qed.

Lemma cons_neq {A} (x : A) (l : list A) : x :: l ≠ l.
Proof. intros H. apply (f_equal length) in H. simpl in H. lia. Qed.

(** A run that called the child: what the call was, what came back and
    the world it left. *)
Lemma backup_called cfg w c :
  w_calls (mysql_backup cfg w).2 = c :: w_calls w →
  ∃ w1 host port user password name target,
    ensure w = (Return BACKUP_DIR, w1) ∧
    db_host cfg = Some host ∧ db_port cfg = Some port ∧
    db_user cfg = Some user ∧ db_password cfg = Some password ∧
    db_name cfg = Some name ∧
    target_db name = Return target ∧
    forallb formattable [target] = true ∧
    forallb formattable [host; port; user] = true ∧
    let filepath :=
      os_path_join BACKUP_DIR
        (filename target (strftime_Ymd_HMS (w_clock w))) in
    let argv := cmd host port user filepath target in
    let env := child_env w password in
    c = {| call_args := argv; call_env := env;
           call_result := (run_child argv env w1).1 |} ∧
    mysql_backup cfg w =
      (verdict filepath (call_result c),
       {| w_fs := (run_child argv env w1).2; w_environ := w_environ w;
          w_objs := w_objs w ++ [env]; w_clock := w_clock w;
          w_calls := c :: w_calls w |}).
Proof.
  intros Hc. pose proof (ensure_only_fs w) as (Henv & Hobjs & Hclk & Hcalls).
  destruct (backup_cases cfg w)
    as [[e He]|(w1 & host & port & user & pw & name & t &
                Hens & Hh & Hp & Hu & Hpw & Hn & Ht & Hf1 & Hf2)].
  - rewrite He in Hc. simpl in Hc. rewrite Hcalls in Hc.
    symmetry in Hc. by apply cons_neq in Hc.
  - rewrite Hens in Henv, Hobjs, Hclk, Hcalls. simpl in Henv, Hobjs, Hclk, Hcalls.
    pose proof (backup_run _ _ _ _ _ _ _ _ _ Hens Hh Hp Hu Hpw Hn Ht Hf1 Hf2)
      as Hrun.
    cbv zeta in Hrun. unfold child_env in *.
    rewrite Henv, Hobjs, Hclk, Hcalls in Hrun.
    rewrite Hrun in Hc. simpl in Hc. injection Hc as <-.
    exists w1, host, port, user, pw, name, t.
    split_and!; try done.
Qed.

(** A run that did not call the child raised, in the world that
    [ensure_backup_dir] left. *)
Lemma backup_not_called cfg w :
  (∃ e, mysql_backup cfg w = (Raise e, (ensure w).2) ∧
        w_calls (mysql_backup cfg w).2 = w_calls w)
  ∨ (∃ c, w_calls (mysql_backup cfg w).2 = c :: w_calls w).
Proof.
  pose proof (ensure_only_fs w) as (Henv & Hobjs & Hclk & Hcalls).
  destruct (backup_cases cfg w)
    as [[e He]|(w1 & host & port & user & pw & name & t &
                Hens & Hh & Hp & Hu & Hpw & Hn & Ht & Hf1 & Hf2)].
  - left. exists e. split; [done|]. by rewrite He.
  - right. rewrite Hens in Hcalls. simpl in Hcalls.
    rewrite (backup_run _ _ _ _ _ _ _ _ _ Hens Hh Hp Hu Hpw Hn Ht Hf1 Hf2).
    cbv zeta. simpl. rewrite Hcalls. by eexists.
Qed.

Lemma filter_nil_strings (l : list pyval) :
  Forall (λ v, is_str v = true) l → filter (λ v, is_str v = false) l = [].
Proof.
  induction 1 as [|v l Hv _ IH]; [done|].
  rewrite filter_cons_False; [done|]. by rewrite Hv.
Qed.

(** The child exits only when it was started, and it is started only on
    arguments and an environment that are all strings. *)
Lemma child_ran_strings (argv : list pyval) (env : gmap str pyval) w1
    code out err :
  (run_child argv env w1).1 = Exited code out err →
  Forall (λ v, is_str v = true) argv.
Proof.
  intros Hran. unfold child in Hran. unfold not_a_str in Hran.
  destruct (head _) as [v|] eqn:Hhead; [done|].
  apply head_None in Hhead.
  apply Forall_forall. intros v Hv.
  destruct (is_str v) eqn:Hs; [done|]. exfalso.
  eapply (filter_nil_not_elem_of _ _ v Hhead); [done|].
  apply elem_of_app. by right.
Qed.


(** ** The result of [backup] *)

(** C2, amended. For every run of [backup] that calls the dump child: when
    the child exits with a status other than 0 and what it wrote is read as
    text, [backup] returns [(False, None, "Fehler beim Erstellen des
    Backups: " + stderr)] with the child's captured standard error; when
    what the child wrote cannot be decoded, whatever its exit status, or
    when the child cannot be run and [subprocess.run] raises an
    [Exception], [backup] returns [(False, None, str(e))].  All of these
    are returned, not raised. *)
Theorem backup_failure_result (cfg : db_config) (w : world) (c : call) :
  w_calls (mysql_backup cfg w).2 = c :: w_calls w →
  (∀ code out err,
     call_result c = Exited code out err → code ≠ 0 →
     (mysql_backup cfg w).1
     = Return (false, None, s!"Fehler beim Erstellen des Backups: " ++ err))
  ∧ (∀ code msg,
       call_result c = Undecodable code msg →
       (mysql_backup cfg w).1 = Return (false, None, msg))
  ∧ (∀ cl msg,
       call_result c = NotStarted cl msg → issubclass cl Exception = true →
       (mysql_backup cfg w).1 = Return (false, None, msg)).
Proof.
  intros Hc.
  destruct (backup_called _ _ _ Hc)
    as (w1 & host & port & user & pw & name & t & _ & _ & _ & _ & _ & _ & _
        & _ & _ & _ & ->).
  split_and!.
  - intros code out err -> Hcode. simpl.
    by rewrite (proj2 (Z.eqb_neq code 0) Hcode).
  - by intros code msg ->.
  - intros cl msg -> Hcl. simpl. by rewrite Hcl.
Qed.

(** C3, amended. For every run of [backup] in which the dump child exits
    with status 0 and what it wrote is read as text, [backup] returns
    [(True, filepath, "Backup erfolgreich erstellt.")], where [filepath] is
    the path it built and passed to the child as the result file; [backup]
    returns success only in such a run; and a child whose output cannot be
    decoded gives a failure, also when it exited with 0.  So the exit status
    and the reading of the captured output decide, whatever file system the
    child left. *)
Theorem backup_success_result (cfg : db_config) (w : world) :
  (∀ c out err,
     w_calls (mysql_backup cfg w).2 = c :: w_calls w →
     call_result c = Exited 0 out err →
     ∃ filepath,
       (mysql_backup cfg w).1
       = Return (true, Some filepath, s!"Backup erfolgreich erstellt.") ∧
       call_args c !! 4%nat = Some (VStr (s!"--result-file=" ++ filepath)))
  ∧ (∀ fp msg,
       (mysql_backup cfg w).1 = Return (true, fp, msg) →
       ∃ c out err,
         w_calls (mysql_backup cfg w).2 = c :: w_calls w ∧
         call_result c = Exited 0 out err)
  ∧ (∀ c code msg,
       w_calls (mysql_backup cfg w).2 = c :: w_calls w →
       call_result c = Undecodable code msg →
       (mysql_backup cfg w).1 = Return (false, None, msg)).
Proof.
  split_and!.
  - intros c out err Hc Hr.
    destruct (backup_called _ _ _ Hc)
      as (w1 & host & port & user & pw & name & t & _ & _ & _ & _ & _ & _ & _
          & _ & _ & Hcall & ->).
    rewrite Hr. simpl. eexists. split; [done|]. by rewrite Hcall.
  - intros fp msg Hres.
    destruct (backup_not_called cfg w) as [(e & He & _)|[c Hc]].
    { by rewrite He in Hres. }
    exists c.
    destruct (backup_called _ _ _ Hc)
      as (w1 & host & port & user & pw & name & t & _ & _ & _ & _ & _ & _ & _
          & _ & _ & _ & Hrun).
    rewrite Hrun in Hres. simpl in Hres.
    destruct (call_result c) as [code out err|code m|cl m]; simpl in Hres.
    + destruct (Z.eqb_spec code 0) as [->|]; [by eauto|done].
    + done.
    + by destruct (issubclass cl Exception).
  - intros c code msg Hc Hr.
    destruct (backup_called _ _ _ Hc)
      as (w1 & host & port & user & pw & name & t & _ & _ & _ & _ & _ & _ & _
          & _ & _ & _ & ->).
    by rewrite Hr.
Qed.

(** C7. For every run of [backup] that calls the dump child, the command is
    [mariadb-dump] with [-h<host>], [-P<port>], [-u<user>],
    [--result-file=<filepath>] for the output path, [--single-transaction],
    and the target database name as the one positional argument; no
    argument is a password flag, and the password is the value of
    [MYSQL_PWD] in the child's environment. *)
Theorem backup_command (cfg : db_config) (w : world) (c : call) :
  w_calls (mysql_backup cfg w).2 = c :: w_calls w →
  ∃ host port user password name target,
    db_host cfg = Some host ∧ db_port cfg = Some port ∧
    db_user cfg = Some user ∧ db_password cfg = Some password ∧
    db_name cfg = Some name ∧
    target_db name = Return target ∧
    call_args c =
      [ VStr s!"mariadb-dump";
        VStr (s!"-h" ++ fmt host);
        VStr (s!"-P" ++ fmt port);
        VStr (s!"-u" ++ fmt user);
        VStr (s!"--result-file="
              ++ os_path_join BACKUP_DIR
                   (filename target (strftime_Ymd_HMS (w_clock w))));
        VStr s!"--single-transaction";
        target ] ∧
    call_env c !! s!"MYSQL_PWD" = Some password ∧
    (∀ n, name = VStr n →
          ∃ t, target = VStr t ∧
               os_path_join BACKUP_DIR
                 (filename target (strftime_Ymd_HMS (w_clock w)))
               = dump_path BACKUP_DIR t (w_clock w)).
Proof.
  intros Hc.
  destruct (backup_called _ _ _ Hc)
    as (w1 & host & port & user & pw & name & t & _ & Hh & Hp & Hu & Hpw
        & Hn & Ht & _ & _ & -> & _).
  exists host, port, user, pw, name, t. split_and!; try done.
  - apply lookup_insert_eq.
  - intros n ->. destruct (target_db_str n) as [s Hs].
    rewrite Hs in Ht. injection Ht as <-. by exists s.
Qed.


(** C10. A call of [backup] leaves [os.environ] as it was: the child's
    environment is a new dict, holding the contents of [os.environ] with
    [MYSQL_PWD] set to the config's password, and the dicts that existed
    before are unchanged. *)
Theorem backup_environ_unchanged (cfg : db_config) (w : world) :
  w_environ (mysql_backup cfg w).2 = w_environ w
  ∧ (∀ c,
       w_calls (mysql_backup cfg w).2 = c :: w_calls w →
       ∃ password,
         db_password cfg = Some password ∧
         call_env c = <[s!"MYSQL_PWD" := password]> (VStr <$> w_environ w) ∧
         w_objs (mysql_backup cfg w).2 = w_objs w ++ [call_env c]).
Proof.
  assert (∀ c, w_calls (mysql_backup cfg w).2 = c :: w_calls w →
            w_environ (mysql_backup cfg w).2 = w_environ w ∧
            ∃ password,
              db_password cfg = Some password ∧
              call_env c
              = <[s!"MYSQL_PWD" := password]> (VStr <$> w_environ w) ∧
              w_objs (mysql_backup cfg w).2 = w_objs w ++ [call_env c])
    as Hcalled.
  { intros c Hc.
    destruct (backup_called _ _ _ Hc)
      as (w1 & host & port & user & pw & name & t & _ & _ & _ & _ & Hpw & _
          & _ & _ & _ & Hcall & ->).
    split; [done|]. exists pw. by rewrite Hcall. }
  split.
  - destruct (backup_not_called cfg w) as [(e & -> & _)|[c Hc]].
    + apply ensure_only_fs.
    + by destruct (Hcalled c Hc).
  - intros c Hc. by destruct (Hcalled c Hc).
Qed.

(** ** The password *)

Lemma backup_called_transfer cfg pw1 pw2 w c1 :
  w_calls (mysql_backup (with_password cfg pw1) w).2 = c1 :: w_calls w →
  ∃ c2,
    w_calls (mysql_backup (with_password cfg pw2) w).2 = c2 :: w_calls w ∧
    call_args c2 = call_args c1.
Proof.
  intros Hc.
  pose proof (ensure_only_fs w) as (_ & _ & Hclk & Hcalls).
  destruct (backup_called _ _ _ Hc)
    as (w1 & host & port & user & pw & name & t & Hens & Hh & Hp & Hu & _
        & Hn & Ht & Hf1 & Hf2 & -> & _).
  rewrite Hens in Hclk, Hcalls. simpl in Hclk, Hcalls.
  rewrite (backup_run (with_password cfg pw2) _ _ _ _ _ pw2 _ _
             Hens Hh Hp Hu eq_refl Hn Ht Hf1 Hf2).
  cbv zeta. simpl. rewrite Hcalls, Hclk. by eexists.
Qed.

(** C5, amended. The argument list of the dump child is built without the
    password: two runs of [backup] from the same world, with configs that
    differ in the password only, call the child with the same arguments.
    (So the password occurs among the arguments only where the text of the
    other fields, of the path or of the fixed flags happens to contain it.)
    The password goes to the child as the value of [MYSQL_PWD] in its
    environment. *)
Theorem cmd_independent_of_password
    (cfg : db_config) (pw1 pw2 : pyval) (w : world) :
  call_args <$> w_calls (mysql_backup (with_password cfg pw1) w).2
  = call_args <$> w_calls (mysql_backup (with_password cfg pw2) w).2
  ∧ (∀ c,
       w_calls (mysql_backup (with_password cfg pw1) w).2 = c :: w_calls w →
       call_env c !! s!"MYSQL_PWD" = Some pw1).
Proof.
  split.
  - destruct (backup_not_called (with_password cfg pw1) w)
      as [(e1 & _ & H1)|[c1 H1]].
    + destruct (backup_not_called (with_password cfg pw2) w)
        as [(e2 & _ & H2)|[c2 H2]]; [by rewrite H1, H2|].
      destruct (backup_called_transfer cfg pw2 pw1 w c2 H2) as (c & Hc & _).
      rewrite H1 in Hc. symmetry in Hc. by apply cons_neq in Hc.
    + destruct (backup_called_transfer cfg pw1 pw2 w c1 H1) as (c2 & H2 & Ha).
      rewrite H1, H2, !fmap_cons. by rewrite Ha.
  - intros c Hc.
    destruct (backup_called _ _ _ Hc)
      as (w1 & host & port & user & pw & name & t & _ & _ & _ & _ & Hpw & _
          & _ & _ & _ & -> & _).
    simpl in Hpw. injection Hpw as <-. apply lookup_insert_eq.
Qed.

(** ** The output file *)

(** C6. For every successful backup at a time the clock gives, the returned
    path is [os.path.join] of the backup directory and
    ["backup_mysql_" + target_db + "_" + timestamp + ".sql"], where the time
    stamp is the local time as eight digits, an underscore and six digits;
    so the path is the backup directory, a separator unless the directory
    ends with one, and a name of the form
    [backup_mysql_<db>_<YYYYMMDD>_<HHMMSS>.sql]. *)
Theorem backup_filepath
    (cfg : db_config) (w : world) (p msg : str) :
  clock_ok (w_clock w) →
  (mysql_backup cfg w).1 = Return (true, Some p, msg) →
  ∃ name target date time,
    db_name cfg = Some (VStr name) ∧
    target_db (VStr name) = Return (VStr target) ∧
    strftime_Ymd_HMS (w_clock w) = date ++ s!"_" ++ time ∧
    digits 8 date = true ∧ digits 6 time = true ∧
    let fname :=
      s!"backup_mysql_" ++ target ++ s!"_" ++ (date ++ s!"_" ++ time)
      ++ s!".sql" in
    p = os_path_join BACKUP_DIR fname ∧
    (p = BACKUP_DIR ++ s!"/" ++ fname ∨ p = BACKUP_DIR ++ fname).
Proof.
  intros Hclk Hres.
  destruct (backup_not_called cfg w) as [(e & He & _)|[c Hc]].
  { by rewrite He in Hres. }
  destruct (backup_called _ _ _ Hc)
    as (w1 & host & port & user & pw & name & t & _ & _ & _ & _ & _ & Hn
        & Ht & _ & _ & Hcall & Hrun).
  cbv zeta in Hcall, Hrun.
  rewrite Hrun in Hres. simpl in Hres.
  assert (p = os_path_join BACKUP_DIR
                (filename t (strftime_Ymd_HMS (w_clock w))) ∧
          ∃ out err, call_result c = Exited 0 out err) as [-> (out & err & Hr)].
  { destruct (call_result c) as [code out err|code m|cl m]; simpl in Hres.
    - destruct (Z.eqb_spec code 0) as [->|]; simplify_eq. eauto.
    - by simplify_eq.
    - destruct (issubclass cl Exception); by simplify_eq. }
  (* the child ran, so the target is a string, and so is [db_name] *)
  assert (is_str t = true) as Hstr.
  { rewrite Hcall in Hr. simpl in Hr.
    pose proof (child_ran_strings _ _ _ _ _ _ Hr) as Hall.
    rewrite Forall_forall in Hall. apply Hall.
    unfold cmd. rewrite !elem_of_cons. auto 10. }
  destruct (target_db_Return _ _ Ht)
    as [(n & s & -> & ->)|(? & ? & ? & -> & ->)]; [|done].
  destruct (strftime_shape _ Hclk) as (date & time & Hts & Hdate & Htime).
  exists n, s, date, time. cbv zeta. unfold filename. cbn [fmt]. rewrite Hts.
  split_and!; try done.
  by apply os_path_join_relative.
Qed.

End properties.

(** * The theorems at sample runs *)

Lemma get_backup_strategy_mysql_usable :
  (get_backup_strategy (VStr s!"mysql") ≫= λ strat,
     (backup Sample.dir Sample.exit0 strat Sample.cfg Sample.w).1)
  = Return (true, Some Sample.dump_file, s!"Backup erfolgreich erstellt.").
Proof. by vm_compute. Qed.

Lemma ensure_backup_dir_twice_witness :
  (ensure_backup_dir Sample.dir Sample.w).1 = Return Sample.dir ∧
  let w1 := (ensure_backup_dir Sample.dir Sample.w).2 in
  w_fs w1 !! path_of_str Sample.dir = Some (Dir true) ∧
  ensure_backup_dir Sample.dir w1 = (Return Sample.dir, w1).
Proof.
  pose proof (ensure_backup_dir_twice Sample.dir Sample.w) as [_ H].
  destruct (H Sample.dir (ensure_backup_dir Sample.dir Sample.w).2)
    as (_ & _ & Hdir & Htwice); [by vm_compute|].
  split; [by vm_compute|]. split; [apply Hdir; by vm_compute|exact Htwice].
Defined.

(** C8 as stated fails where the directory cannot be made: with [/app]
    read-only and no [/app/backups], the first call raises. *)
Lemma ensure_backup_dir_twice_counterexample :
  w_fs Sample.w_readonly !! path_of_str Sample.dir = None ∧
  (ensure_backup_dir Sample.dir Sample.w_readonly).1
  = Raise (Exn PermissionError s!"[Errno 13] Permission denied").
Proof. split; by vm_compute. Qed.

Lemma backup_failure_result_witness :
  (backup Sample.dir Sample.denied MySQLBackup Sample.cfg Sample.w).1
  = Return (false, None,
            s!"Fehler beim Erstellen des Backups: " ++ s!"Access denied")
  ∧ (backup Sample.dir Sample2.garbled1 MySQLBackup Sample.cfg Sample.w).1
    = Return (false, None, Sample2.decode_error)
  ∧ (backup Sample.dir Sample.missing MySQLBackup Sample.cfg Sample.w).1
    = Return (false, None,
              s!"[Errno 2] No such file or directory: 'mariadb-dump'").
Proof.
  split_and!.
  - refine (proj1 (backup_failure_result Sample.dir Sample.denied
                     Sample.cfg Sample.w _ _) 1 [] _ _ _).
    + by vm_compute.
    + by vm_compute.
    + lia.
  - refine (proj1 (proj2 (backup_failure_result Sample.dir Sample2.garbled1
                            Sample.cfg Sample.w _ _)) 1 _ _).
    + by vm_compute.
    + by vm_compute.
  - refine (proj2 (proj2 (backup_failure_result Sample.dir Sample.missing
                            Sample.cfg Sample.w _ _))
              FileNotFoundError _ _ _).
    + by vm_compute.
    + by vm_compute.
    + by vm_compute.
Defined.

(** C2 as stated fails on the text of the message: where the dump exits
    with 1 and "Access denied" on standard error, the message is not
    "Error creating backup: Access denied".  It also fails where the dump
    exits with 1 after writing bytes that are not text: the message is that
    of the decoding error, without the prefix. *)
Lemma backup_failure_result_counterexample :
  (∃ c, w_calls (backup Sample.dir Sample.denied MySQLBackup
                   Sample.cfg Sample.w).2 = [c] ∧
        call_result c = Exited 1 [] s!"Access denied")
  ∧ (backup Sample.dir Sample.denied MySQLBackup Sample.cfg Sample.w).1
    ≠ Return (false, None, s!"Error creating backup: " ++ s!"Access denied")
  ∧ (∃ c, w_calls (backup Sample.dir Sample2.garbled1 MySQLBackup
                     Sample.cfg Sample.w).2 = [c] ∧
          call_result c = Undecodable 1 Sample2.decode_error)
  ∧ (backup Sample.dir Sample2.garbled1 MySQLBackup Sample.cfg Sample.w).1
    = Return (false, None, Sample2.decode_error)
  ∧ startswith s!"Fehler beim Erstellen des Backups: " Sample2.decode_error
    = false.
Proof.
  split_and!.
  - eexists. split; by vm_compute.
  - by vm_compute.
  - eexists. split; by vm_compute.
  - by vm_compute.
  - by vm_compute.
Qed.

Lemma backup_success_result_witness :
  (∃ filepath,
     (backup Sample.dir Sample.exit0 MySQLBackup Sample.cfg Sample.w).1
     = Return (true, Some filepath, s!"Backup erfolgreich erstellt."))
  ∧ w_fs (backup Sample.dir Sample.exit0 MySQLBackup Sample.cfg Sample.w).2
    !! path_of_str Sample.dump_file = None
  ∧ (backup Sample.dir Sample2.garbled0 MySQLBackup Sample.cfg Sample.w).1
    = Return (false, None, Sample2.decode_error).
Proof.
  split; [|split; [by vm_compute|]].
  2: { refine (proj2 (proj2 (backup_success_result Sample.dir
                               Sample2.garbled0 Sample.cfg Sample.w))
                 _ 0 _ _ _); by vm_compute. }
  destruct (proj1 (backup_success_result Sample.dir Sample.exit0
                     Sample.cfg Sample.w)
              {| call_args :=
                   cmd (VStr s!"localhost") (VInt 3306) (VStr s!"root")
                     Sample.dump_file (VStr s!"appdb");
                 call_env := child_env Sample.w (VStr s!"secret");
                 call_result := Exited 0 [] [] |} [] [])
    as (filepath & Hres & _); [by vm_compute|by vm_compute|].
  by exists filepath.
Defined.

(** C3 as stated fails on the text of the message: where the dump exits
    with 0, the result is a success with the path, but its message is not
    "Backup created successfully.".  It also fails where the dump exits with
    0 after writing bytes that are not text: the result is a failure. *)
Lemma backup_success_result_counterexample :
  (∃ c, w_calls (backup Sample.dir Sample.exit0 MySQLBackup
                   Sample.cfg Sample.w).2 = [c] ∧
        call_result c = Exited 0 [] [])
  ∧ (backup Sample.dir Sample.exit0 MySQLBackup Sample.cfg Sample.w).1
    ≠ Return (true, Some Sample.dump_file, s!"Backup created successfully.")
  ∧ (∃ c, w_calls (backup Sample.dir Sample2.garbled0 MySQLBackup
                     Sample.cfg Sample.w).2 = [c] ∧
          call_result c = Undecodable 0 Sample2.decode_error)
  ∧ (backup Sample.dir Sample2.garbled0 MySQLBackup Sample.cfg Sample.w).1
    = Return (false, None, Sample2.decode_error).
Proof.
  split_and!.
  - eexists. split; by vm_compute.
  - by vm_compute.
  - eexists. split; by vm_compute.
  - by vm_compute.
Qed.

Lemma cmd_independent_of_password_witness :
  ∃ c,
    w_calls (backup Sample.dir Sample.exit0 MySQLBackup
               (with_password Sample.cfg (VStr s!"secret")) Sample.w).2
    = [c] ∧
    call_env c !! s!"MYSQL_PWD" = Some (VStr s!"secret").
Proof.
  eexists. split; [by vm_compute|].
  apply (proj2 (cmd_independent_of_password Sample.dir Sample.exit0
                  Sample.cfg (VStr s!"secret") VNone Sample.w)).
  by vm_compute.
Defined.

(** C5 as stated fails where the password is also the text of another
    field: with the password "appdb" for the database "appdb", the last
    argument of the command is the password. *)
Lemma cmd_independent_of_password_counterexample :
  db_password (Sample.config (VStr s!"appdb") (VStr s!"appdb"))
  = Some (VStr s!"appdb")
  ∧ ∃ c, w_calls (backup Sample.dir Sample.exit0 MySQLBackup
                    (Sample.config (VStr s!"appdb") (VStr s!"appdb"))
                    Sample.w).2 = [c] ∧
         VStr s!"appdb" ∈ call_args c ∧
         call_args c !! 4%nat
         = Some (VStr (s!"--result-file=" ++ Sample.dump_file)) ∧
         str_contains s!"appdb" (s!"--result-file=" ++ Sample.dump_file)
         = true.
Proof.
  split; [done|]. eexists. split; [by vm_compute|]. simpl.
  split_and!; [|by vm_compute..].
  rewrite list_elem_of_lookup. by exists 6%nat.
Qed.

Lemma backup_filepath_witness :
  ∃ name target date time,
    db_name Sample.cfg = Some (VStr name) ∧
    target_db (VStr name) = Return (VStr target) ∧
    strftime_Ymd_HMS Sample.clock = date ++ s!"_" ++ time ∧
    digits 8 date = true ∧ digits 6 time = true ∧
    Sample.dump_file
    = Sample.dir ++ s!"/" ++ s!"backup_mysql_" ++ target ++ s!"_"
      ++ (date ++ s!"_" ++ time) ++ s!".sql".
Proof.
  destruct (backup_filepath Sample.dir Sample.exit0 Sample.cfg Sample.w
              Sample.dump_file s!"Backup erfolgreich erstellt.")
    as (name & target & date & time & Hn & Ht & Hts & Hd & Htm & Hp & _).
  - unfold clock_ok. simpl. lia.
  - by vm_compute.
  - by exists name, target, date, time.
Defined.

Lemma backup_command_witness :
  ∃ c,
    w_calls (backup Sample.dir Sample.exit0 MySQLBackup
               Sample.cfg Sample.w).2 = [c] ∧
    call_args c =
      [ VStr s!"mariadb-dump"; VStr s!"-hlocalhost"; VStr s!"-P3306";
        VStr s!"-uroot";
        VStr s!"--result-file=/app/backups/backup_mysql_appdb_20240309_140500.sql";
        VStr s!"--single-transaction"; VStr s!"appdb" ] ∧
    call_env c !! s!"MYSQL_PWD" = Some (VStr s!"secret").
Proof.
  eexists. split; [by vm_compute|].
  edestruct (backup_command Sample.dir Sample.exit0 Sample.cfg Sample.w)
    as (host & port & user & password & name & target & Hh & Hp & Hu & Hpw
        & Hn & Ht & Hargs & Henv & _); [by vm_compute|].
  simpl in Hh, Hp, Hu, Hpw, Hn. simplify_eq.
  split; [by vm_compute|exact Henv].
Defined.



Lemma backup_environ_unchanged_witness :
  w_environ (backup Sample.dir Sample.exit0 MySQLBackup
               Sample.cfg Sample.w).2 = w_environ Sample.w
  ∧ ∃ password,
      db_password Sample.cfg = Some password ∧
      child_env Sample.w (VStr s!"secret")
      = <[s!"MYSQL_PWD" := password]> (VStr <$> w_environ Sample.w).
Proof.
  destruct (backup_environ_unchanged Sample.dir Sample.exit0
              Sample.cfg Sample.w) as [Henv Hcall].
  split; [exact Henv|].
  destruct (Hcall
              {| call_args :=
                   cmd (VStr s!"localhost") (VInt 3306) (VStr s!"root")
                     Sample.dump_file (VStr s!"appdb");
                 call_env := child_env Sample.w (VStr s!"secret");
                 call_result := Exited 0 [] [] |})
    as (password & Hpw & Hce & _); [by vm_compute|].
  exists password. split; [exact Hpw|exact Hce].
Defined.

(** * Further properties *)

(** ** The factory on any value *)


(** ** The target database *)

Section target.

Implicit Types (c : N) (s t : str).

Lemma startswith_app s t : startswith s (s ++ t) = true.
Proof. induction s as [|a s IH]; [done|]. simpl. by rewrite N.eqb_refl. Qed.

Lemma str_contains_middle l s r : str_contains s (l ++ s ++ r) = true.
Proof.
  induction l as [|a l IH].
  - destruct (s ++ r) eqn:E; simpl.
    + by destruct s.
    + rewrite <- E. by rewrite startswith_app.
  - change (str_contains s ((a :: l) ++ s ++ r))
      with (startswith s (a :: l ++ s ++ r) || str_contains s (l ++ s ++ r)).
    rewrite IH. apply orb_true_r.
Qed.

Lemma not_elem_of_app_parts c (l t r : str) : c ∉ l ++ t ++ r → c ∉ t.
Proof. rewrite !elem_of_app. tauto. Qed.

(** X2. The target of a string [db_name] is a string without a comma that
    occurs in [db_name], and it is its own target: extracting twice gives
    nothing new. *)
Theorem target_db_comma_free (db_name : str) :
  ∃ t,
    target_db (VStr db_name) = Return (VStr t) ∧
    (44%N ∉ t) ∧
    str_contains t db_name = true ∧
    target_db (VStr t) = Return (VStr t).
Proof.
  assert (∀ t, 44%N ∉ t → target_db (VStr t) = Return (VStr t)) as Hfix.
  { intros t Ht. unfold target_db, py_in. cbn.
    destruct (str_contains s!"," t) eqn:E; [|done].
    change (lit ",") with [44%N] in E. by apply str_contains_char in E. }
  destruct (decide (44%N ∈ db_name)) as [Hin|Hnot].
  - destruct (split_on_present _ _ Hin)
      as (pre & post & rest & Hs & Hpre & Hsp).
    destruct (strip_trimmed pre) as (l & r & Hlr & _).
    assert (44%N ∉ strip pre) as Hfree.
    { apply (not_elem_of_app_parts _ l _ r). by rewrite <- Hlr. }
    exists (strip pre). split_and!; [|done| |by apply Hfix].
    + unfold target_db, py_in. cbn. apply str_contains_char in Hin.
      change (lit ",") with [44%N]. rewrite Hin. cbn. by rewrite Hsp.
    + rewrite Hs. rewrite Hlr at 2. rewrite <- !app_assoc.
      apply str_contains_middle.
  - exists db_name. split_and!; [by apply Hfix|done| |by apply Hfix].
    rewrite <- (app_nil_r db_name) at 2.
    apply (str_contains_middle [] db_name []).
Qed.

End target.

(** ** Time stamps and file names *)

Section timestamps.

Implicit Types (a b : str) (n m : N) (d : datetime).

Lemma str_lt_irrefl a : str_lt a a = false.
Proof.
  induction a as [|x a IH]; [done|]. simpl.
  by rewrite N.ltb_irrefl, N.eqb_refl, IH.
Qed.

(** Comparing strings that start with parts of one length: the first
    parts decide, and when they are equal the rests do. *)
Lemma str_lt_app a1 a2 b1 b2 :
  length a1 = length a2 →
  str_lt (a1 ++ b1) (a2 ++ b2)
  = str_lt a1 a2 || bool_decide (a1 = a2) && str_lt b1 b2.
Proof.
  revert a2. induction a1 as [|x a1 IH]; intros [|y a2] Hlen;
    try discriminate Hlen.
  - by rewrite bool_decide_true.
  - injection Hlen as Hlen. simpl. rewrite (IH a2 Hlen).
    destruct (N.eqb_spec x y) as [->|Hne].
    + rewrite N.ltb_irrefl. simpl. f_equal.
      f_equal. apply bool_decide_ext. split; congruence.
    + rewrite (bool_decide_false (x :: a1 = y :: a2)) by congruence.
      simpl. by rewrite !orb_false_r.
Qed.

Lemma pad2_pair n m :
  (n < 100)%N → (m < 100)%N →
  str_lt (pad2 n) (pad2 m) = (n <? m)%N ∧
  bool_decide (pad2 n = pad2 m) = (n =? m)%N ∧
  length (pad2 n) = 2%nat.
Proof.
  intros Hn Hm.
  pose (ok := λ i j : nat,
    let n := N.of_nat i in let m := N.of_nat j in
    bool_decide (str_lt (pad2 n) (pad2 m) = (n <? m)%N) &&
    bool_decide (bool_decide (pad2 n = pad2 m) = (n =? m)%N) &&
    bool_decide (length (pad2 n) = 2%nat)).
  assert (forallb (λ i, forallb (ok i) (seq 0 100)) (seq 0 100) = true)
    as Hall by (by vm_compute).
  rewrite forallb_forall in Hall.
  assert (In (N.to_nat n) (seq 0 100)) as Hi by (apply in_seq; lia).
  assert (In (N.to_nat m) (seq 0 100)) as Hj by (apply in_seq; lia).
  specialize (Hall _ Hi). rewrite forallb_forall in Hall.
  specialize (Hall _ Hj). unfold ok in Hall. rewrite !N2Nat.id in Hall.
  apply andb_true_iff in Hall as [Hall H3].
  apply andb_true_iff in Hall as [H1 H2].
  apply bool_decide_eq_true in H1, H2, H3. done.
Qed.

Lemma str_lt_pad2_app n m a b :
  (n < 100)%N → (m < 100)%N →
  str_lt (pad2 n ++ a) (pad2 m ++ b)
  = (n <? m)%N || (n =? m)%N && str_lt a b.
Proof.
  intros Hn Hm.
  destruct (pad2_pair n m Hn Hm) as (Hlt & Heq & Hlen).
  destruct (pad2_pair m m Hm Hm) as (_ & _ & Hlen').
  rewrite str_lt_app by congruence. by rewrite Hlt, Heq.
Qed.

Lemma year_pad2 (y : N) :
  (1000 ≤ y ≤ 9999)%N → str_of_N y = pad2 (y / 100) ++ pad2 (y mod 100).
Proof.
  intros Hy.
  pose (ok := λ k : nat,
    let y := (N.of_nat k + 1000)%N in
    bool_decide (str_of_N y = pad2 (y / 100) ++ pad2 (y mod 100))).
  assert (forallb ok (seq 0 (N.to_nat 9000)) = true)
    as Hall by (by vm_compute).
  rewrite forallb_forall in Hall.
  assert (In (N.to_nat (y - 1000)) (seq 0 (N.to_nat 9000)))
    as Hi by (apply in_seq; lia).
  specialize (Hall _ Hi). unfold ok in Hall.
  apply bool_decide_eq_true in Hall.
  by replace (N.of_nat (N.to_nat (y - 1000)) + 1000)%N with y in Hall by lia.
Qed.

Lemma strftime_blocks d :
  clock_ok d →
  strftime_Ymd_HMS d
  = pad2 (year d / 100) ++ pad2 (year d mod 100) ++ pad2 (month d)
    ++ pad2 (day d) ++ s!"_" ++ pad2 (hour d) ++ pad2 (minute d)
    ++ pad2 (second d) ++ [].
Proof.
  intros (Hy & _). unfold strftime_Ymd_HMS.
  by rewrite (year_pad2 _ Hy), app_nil_r, <- !app_assoc.
Qed.

Lemma str_lt_strftime d1 d2 :
  clock_ok d1 → clock_ok d2 →
  str_lt (strftime_Ymd_HMS d1) (strftime_Ymd_HMS d2) = true
  ↔ datetime_lt d1 d2.
Proof.
  intros Hd1 Hd2.
  rewrite (strftime_blocks _ Hd1), (strftime_blocks _ Hd2).
  destruct Hd1 as (Hy1 & Hm1 & Hday1 & HH1 & HM1 & HS1).
  destruct Hd2 as (Hy2 & Hm2 & Hday2 & HH2 & HM2 & HS2).
  pose proof (N.div_mod (year d1) 100 ltac:(done)) as Hq1.
  pose proof (N.div_mod (year d2) 100 ltac:(done)) as Hq2.
  pose proof (N.mod_lt (year d1) 100 ltac:(done)) as Hr1.
  pose proof (N.mod_lt (year d2) 100 ltac:(done)) as Hr2.
  assert (year d1 / 100 < 100)%N as Hc1
    by (apply N.Div0.div_lt_upper_bound; lia).
  assert (year d2 / 100 < 100)%N as Hc2
    by (apply N.Div0.div_lt_upper_bound; lia).
  rewrite !str_lt_pad2_app by lia.
  change (str_lt (s!"_" ++ ?a) (s!"_" ++ ?b)) with (str_lt a b).
  rewrite !str_lt_pad2_app by lia. simpl (str_lt [] []).
  rewrite !andb_false_r, !orb_false_r.
  repeat first [ setoid_rewrite orb_true_iff | setoid_rewrite andb_true_iff
               | setoid_rewrite N.ltb_lt | setoid_rewrite N.eqb_eq ].
  unfold datetime_lt.
  generalize dependent (year d1 / 100)%N. intros q1 ? ?.
  generalize dependent (year d2 / 100)%N. intros q2 ? ?.
  generalize dependent (year d1 mod 100)%N. intros r1 ? ?.
  generalize dependent (year d2 mod 100)%N. intros r2 ? ?.
  lia.
Qed.

Lemma datetime_trichotomy d1 d2 :
  d1 = d2 ∨ datetime_lt d1 d2 ∨ datetime_lt d2 d1.
Proof.
  destruct (decide (year d1 = year d2 ∧ month d1 = month d2 ∧
                    day d1 = day d2 ∧ hour d1 = hour d2 ∧
                    minute d1 = minute d2 ∧ second d1 = second d2))
    as [Heq|Hne].
  - left. destruct d1, d2. simpl in Heq.
    destruct Heq as (-> & -> & -> & -> & -> & ->). done.
  - right. unfold datetime_lt. lia.
Qed.

Lemma strftime_inj d1 d2 :
  clock_ok d1 → clock_ok d2 →
  strftime_Ymd_HMS d1 = strftime_Ymd_HMS d2 → d1 = d2.
Proof.
  intros H1 H2 Heq.
  destruct (datetime_trichotomy d1 d2) as [?|[Hlt|Hlt]]; [done|..].
  - apply (str_lt_strftime _ _ H1 H2) in Hlt.
    by rewrite Heq, str_lt_irrefl in Hlt.
  - apply (str_lt_strftime _ _ H2 H1) in Hlt.
    by rewrite Heq, str_lt_irrefl in Hlt.
Qed.

Lemma strftime_length d : clock_ok d → length (strftime_Ymd_HMS d) = 15%nat.
Proof.
  intros Hd. destruct (strftime_shape d Hd) as (date & time & -> & H8 & H6).
  unfold digits in H8, H6.
  apply andb_true_iff in H8 as [H8 _]. apply andb_true_iff in H6 as [H6 _].
  apply bool_decide_eq_true in H8, H6.
  rewrite !length_app, H8, H6. done.
Qed.

(** X3. [get_timestamp] reads the clock and changes nothing, and its results
    sort as the times do: of two clock values the earlier one gives the
    string that is smaller in the order of strings. *)
Theorem get_timestamp_sortable (w1 w2 : world) :
  clock_ok (w_clock w1) → clock_ok (w_clock w2) →
  ∃ t1 t2,
    get_timestamp w1 = (Return t1, w1) ∧
    get_timestamp w2 = (Return t2, w2) ∧
    (str_lt t1 t2 = true ↔ datetime_lt (w_clock w1) (w_clock w2)).
Proof.
  intros H1 H2. eexists _, _. split_and!; [done|done|].
  by apply str_lt_strftime.
Qed.

(** X4. The path of the dump file tells the target database and the second of
    the backup: with one backup directory, two targets and two clock values
    give the same path only when the targets are equal and the clock values
    are. *)
Theorem filepath_inj (BACKUP_DIR t1 t2 : str) (d1 d2 : datetime) :
  clock_ok d1 → clock_ok d2 →
  os_path_join BACKUP_DIR (filename (VStr t1) (strftime_Ymd_HMS d1))
  = os_path_join BACKUP_DIR (filename (VStr t2) (strftime_Ymd_HMS d2)) →
  t1 = t2 ∧ d1 = d2.
Proof.
  intros H1 H2. unfold os_path_join, filename.
  change (startswith s!"/" (s!"backup_mysql_" ++ ?x)) with false.
  cbv iota. intros Heq.
  assert (fmt (VStr t1) ++ s!"_" ++ strftime_Ymd_HMS d1 ++ s!".sql"
          = fmt (VStr t2) ++ s!"_" ++ strftime_Ymd_HMS d2 ++ s!".sql")
    as Hrest.
  { destruct (_ || _).
    - by apply app_inv_head in Heq; apply app_inv_head in Heq.
    - apply app_inv_head in Heq. apply (app_inv_head s!"/") in Heq.
      by apply app_inv_head in Heq. }
  cbn [fmt] in Hrest. apply app_inj_2 in Hrest as [-> Hts].
  - split; [done|]. apply (app_inv_head s!"_") in Hts.
    apply app_inv_tail in Hts. by apply strftime_inj.
  - rewrite !length_app. by rewrite !strftime_length.
Qed.

End timestamps.

(** ** The file system under [ensure_backup_dir] *)

Lemma mkdir_preserves p w q k :
  w_fs w !! q = Some k → w_fs (mkdir p w).2 !! q = Some k.
Proof.
  intros Hq. unfold mkdir. destruct (w_fs w !! p) eqn:Hp; [done|].
  destruct (w_fs w !! removelast p) as [[[]|]|]; try done.
  simpl. rewrite lookup_insert_ne; [done|]. congruence.
Qed.

Lemma makedirs_preserves rp w q k :
  w_fs w !! q = Some k → w_fs (makedirs rp w).2 !! q = Some k.
Proof.
  revert w. induction rp as [|tail rhead IH]; intros w Hq.
  - by apply mkdir_preserves.
  - simpl. unfold mbind, M_bind, exists_at.
    destruct (negb _); simpl; [|by apply mkdir_preserves].
    unfold try_except. specialize (IH w Hq).
    destruct (makedirs rhead w) as [[[]|e] w1]; simpl in IH.
    + by apply mkdir_preserves.
    + destruct (isinstance e FileExistsError); simpl; [|done].
      by apply mkdir_preserves.
Qed.

(** Making a chain of directories below an existing writable one. *)
Lemma makedirs_chain base rest w :
  rest ≠ [] →
  w_fs w !! base = Some (Dir true) →
  (∀ n, (0 < n ≤ length rest)%nat → w_fs w !! (base ++ take n rest) = None) →
  ∃ w',
    makedirs (reverse (base ++ rest)) w = (Return tt, w') ∧
    (∀ n, (n ≤ length rest)%nat →
          w_fs w' !! (base ++ take n rest) = Some (Dir true)) ∧
    (∀ q, (∀ n, (n ≤ length rest)%nat → q ≠ base ++ take n rest) →
          w_fs w' !! q = w_fs w !! q).
Proof.
  induction rest as [|x rest IH] using rev_ind; [done|].
  intros _ Hbase Hfree.
  assert (length (rest ++ [x]) = S (length rest)) as Hlen
    by (rewrite length_app; simpl; lia).
  assert (∀ n, (n ≤ length rest)%nat →
               take n (rest ++ [x]) = take n rest) as Htake.
  { intros n Hn. by rewrite take_app_le. }
  assert (take (S (length rest)) (rest ++ [x]) = rest ++ [x]) as Hall.
  { rewrite <- Hlen. apply firstn_all. }
  assert (∀ n, (n ≤ length rest)%nat →
               (base ++ rest) ++ [x] ≠ base ++ take n rest) as Hlonger.
  { intros n Hn H. apply (f_equal length) in H.
    rewrite !length_app, length_take in H. simpl in H. lia. }
  assert (w_fs w !! ((base ++ rest) ++ [x]) = None) as Hnew.
  { rewrite <- app_assoc, <- Hall. apply Hfree. lia. }
  rewrite Hlen.
  (* the parent is there once the first step is done *)
  assert (∃ w1,
            (if negb (bool_decide (is_Some (w_fs w !! (base ++ rest))))
             then try_except (makedirs (reverse (base ++ rest)))
                    (λ e, if isinstance e FileExistsError then mret tt
                          else raise e)
             else mret tt) w = (Return tt, w1) ∧
            (∀ n, (n ≤ length rest)%nat →
                  w_fs w1 !! (base ++ take n rest) = Some (Dir true)) ∧
            (∀ q, (∀ n, (n ≤ length rest)%nat → q ≠ base ++ take n rest) →
                  w_fs w1 !! q = w_fs w !! q))
    as (w1 & Hfirst & Hmade & Hother).
  { destruct (decide (rest = [])) as [->|Hne].
    - exists w. rewrite app_nil_r.
      rewrite bool_decide_true by (by rewrite Hbase). simpl.
      split; [done|]. split; [|done].
      intros n Hn. rewrite take_nil, app_nil_r. done.
    - destruct IH as (w1 & Hmk & Hmade & Hother); [done|done| |].
      { intros n Hn. rewrite <- (Htake n) by lia. apply Hfree. lia. }
      exists w1. split; [|done].
      assert (w_fs w !! (base ++ rest) = None) as Hhead.
      { pose proof (Hfree (length rest)) as Hf.
        rewrite (Htake (length rest)), firstn_all in Hf by lia.
        apply Hf. destruct rest; [done|]. simpl in *. lia. }
      rewrite bool_decide_false by (rewrite Hhead; by intros [? ?]). simpl.
      unfold try_except. by rewrite Hmk. }
  rewrite app_assoc, reverse_snoc. simpl.
  unfold mbind, M_bind, exists_at. rewrite reverse_involutive, Hfirst.
  rewrite reverse_cons, reverse_involutive.
  unfold mkdir. rewrite (Hother _ Hlonger), Hnew.
  rewrite removelast_last.
  pose proof (Hmade (length rest) ltac:(lia)) as Hparent.
  rewrite firstn_all in Hparent. rewrite Hparent.
  eexists. split; [done|]. simpl. split.
  - intros n Hn. destruct (decide (n = S (length rest))) as [->|Hn'].
    + rewrite Hall, app_assoc. apply lookup_insert_eq.
    + rewrite (Htake n) by lia.
      rewrite lookup_insert_ne by (apply Hlonger; lia).
      apply Hmade. lia.
  - intros q Hq. rewrite lookup_insert_ne.
    + apply Hother. intros n Hn. rewrite <- (Htake n) by lia. apply Hq. lia.
    + intros <-. apply (Hq (S (length rest))); [lia|].
      by rewrite Hall, app_assoc.
Qed.

Section more_properties.

Variable BACKUP_DIR : str.
Variable spawn :
  list str → gmap str str → gmap path kind → proc_result * gmap path kind.

Local Abbreviation ensure := (ensure_backup_dir BACKUP_DIR).
Local Abbreviation mysql_backup := (backup BACKUP_DIR spawn MySQLBackup).
Local Abbreviation run_child := (child spawn).

(** X5. [ensure_backup_dir] only adds to the file system: whether it returns or
    raises, every node that was there is there unchanged afterwards, and
    nothing but the file system changes. *)
Theorem ensure_backup_dir_preserves (w : world) (q : path) (k : kind) :
  w_fs w !! q = Some k →
  w_fs (ensure w).2 !! q = Some k ∧ only_fs w (ensure w).2.
Proof.
  intros Hq. split; [|apply ensure_only_fs].
  unfold ensure_backup_dir, os_path_exists, exists_at, os_makedirs.
  unfold mbind, M_bind. case_bool_decide as Hex; simpl; [done|].
  pose proof (makedirs_preserves (reverse (path_of_str BACKUP_DIR)) w q k Hq)
    as H.
  by destruct (makedirs _ w) as [[[]|e] w2].
Qed.

(** X6. [ensure_backup_dir] makes the directory with all its missing parents:
    when the path of [BACKUP_DIR] continues an existing writable directory
    [base] by components [rest] of which none exists yet, the call returns
    [BACKUP_DIR], every directory from [base] down to the backup directory
    is there afterwards, and no other path is touched. *)
Theorem ensure_backup_dir_recursive (w : world) (base rest : path) :
  path_of_str BACKUP_DIR = base ++ rest → rest ≠ [] →
  w_fs w !! base = Some (Dir true) →
  (∀ n, (0 < n ≤ length rest)%nat → w_fs w !! (base ++ take n rest) = None) →
  ∃ w',
    ensure w = (Return BACKUP_DIR, w') ∧
    (∀ n, (n ≤ length rest)%nat →
          w_fs w' !! (base ++ take n rest) = Some (Dir true)) ∧
    (∀ q, (∀ n, (n ≤ length rest)%nat → q ≠ base ++ take n rest) →
          w_fs w' !! q = w_fs w !! q).
Proof.
  intros Hpath Hne Hbase Hfree.
  destruct (makedirs_chain base rest w Hne Hbase Hfree)
    as (w' & Hmk & Hmade & Hother).
  exists w'. split; [|done].
  unfold ensure_backup_dir, os_path_exists, exists_at, os_makedirs.
  unfold mbind, M_bind. rewrite Hpath.
  assert (w_fs w !! (base ++ rest) = None) as Hnone.
  { pose proof (Hfree (length rest)) as Hf. rewrite firstn_all in Hf.
    apply Hf. destruct rest; [done|]. simpl. lia. }
  rewrite bool_decide_false by (rewrite Hnone; by intros [? ?]). simpl.
  by rewrite Hmk.
Qed.

End more_properties.

Section more_backup.

Variable BACKUP_DIR : str.
Variable spawn :
  list str → gmap str str → gmap path kind → proc_result * gmap path kind.

Local Abbreviation ensure := (ensure_backup_dir BACKUP_DIR).
Local Abbreviation mysql_backup := (backup BACKUP_DIR spawn MySQLBackup).
Local Abbreviation run_child := (child spawn).

Lemma omap_as_str_fmap (l : list str) : omap as_str (VStr <$> l) = l.
Proof. induction l as [|a l IH]; [done|]. simpl. by f_equal. Qed.

Lemma omap_as_str_child_env w (pw : str) :
  omap as_str (child_env w (VStr pw)) = <[s!"MYSQL_PWD" := pw]> (w_environ w).
Proof.
  apply map_eq. intros k. unfold child_env. rewrite lookup_omap.
  destruct (decide (s!"MYSQL_PWD" = k)) as [<-|Hk].
  - by rewrite !lookup_insert_eq.
  - rewrite !lookup_insert_ne, lookup_fmap by done.
    by destruct (w_environ w !! k).
Qed.

(** The values of the child's environment are the password and strings. *)
Lemma child_env_values w pw v :
  v ∈ (map_to_list (child_env w pw)).*2 → v = pw ∨ is_str v = true.
Proof.
  intros Hv. apply list_elem_of_fmap in Hv as ([k v'] & -> & Hkv).
  apply elem_of_map_to_list in Hkv. unfold child_env in Hkv. simpl.
  destruct (decide (s!"MYSQL_PWD" = k)) as [<-|Hk].
  - rewrite lookup_insert_eq in Hkv. left. congruence.
  - rewrite lookup_insert_ne, lookup_fmap in Hkv by done.
    destruct (w_environ w !! k); simplify_eq/=. by right.
Qed.

Lemma not_a_str_strings (argv : list str) w (pw : str) :
  not_a_str (VStr <$> argv) (child_env w (VStr pw)) = None.
Proof.
  unfold not_a_str. rewrite filter_nil_strings; [done|].
  apply Forall_app. split.
  - apply Forall_forall. intros v Hv.
    by destruct (child_env_values _ _ _ Hv) as [->|?].
  - apply Forall_forall. intros v Hv.
    by apply list_elem_of_fmap in Hv as (a & -> & _).
Qed.

Lemma not_a_str_password (argv : list pyval) w pw :
  is_str pw = false → not_a_str argv (child_env w pw) = Some pw.
Proof.
  intros Hpw. unfold not_a_str. rewrite filter_app.
  set (l := (map_to_list (child_env w pw)).*2).
  assert (pw ∈ filter (λ v, is_str v = false) l) as Hin.
  { apply list_elem_of_filter. split; [done|].
    apply list_elem_of_fmap.
    exists (s!"MYSQL_PWD", pw). split; [done|].
    apply elem_of_map_to_list. apply lookup_insert_eq. }
  destruct (filter _ l) as [|v rest] eqn:E; [by inversion Hin|].
  simpl. f_equal.
  assert (v ∈ filter (λ v, is_str v = false) l) as Hv
    by (rewrite E; left).
  apply list_elem_of_filter in Hv as [Hv Hl].
  destruct (child_env_values _ _ _ Hl) as [->|?]; [done|congruence].
Qed.

(** When the extraction of the target returns. *)
Lemma target_db_returns (name : pyval) :
  (∃ target, target_db name = Return target)
  ↔ is_str name = true
    ∨ ∃ k items shown, name = VSeq k items shown ∧ VStr s!"," ∉ items.
Proof.
  destruct name as [n|z| |k items shown].
  - destruct (target_db_str n) as [t Ht]. split; eauto.
  - split; [by intros [? ?]|]. intros [?|(? & ? & ? & ? & _)]; done.
  - split; [by intros [? ?]|]. intros [?|(? & ? & ? & ? & _)]; done.
  - unfold target_db, py_in. cbn.
    destruct (existsb _ items) eqn:E; cbn.
    + split; [by intros [? ?]|]. intros [?|(? & ? & ? & [= <- <- <-] & Hno)];
        [done|].
      apply existsb_exists in E as (item & Hitem & Heq).
      unfold py_eq in Heq. apply bool_decide_eq_true in Heq as ->.
      by apply list_elem_of_In in Hitem.
    + split; [|by eauto]. intros _. right. exists k, items, shown.
      split; [done|]. intros Hin. apply list_elem_of_In in Hin.
      assert (existsb (λ item, py_eq item (VStr s!",")) items = true)
        as Hex; [|congruence].
      apply existsb_exists. exists (VStr s!","). split; [done|].
      unfold py_eq. by apply bool_decide_eq_true.
Qed.

(** X8. [backup] calls the dump exactly when the backup directory is
    available, the config has all five attributes, the extraction of the
    target from [db_name] returns, and host, port, user and the target can
    be formatted; the password is not looked at and nothing else is
    checked.  The extraction returns exactly for a string and for a
    container that does not hold the string ",".  And a run never calls
    more than once. *)
Theorem backup_calls_iff (cfg : db_config) (w : world) :
  ((∃ c, w_calls (mysql_backup cfg w).2 = c :: w_calls w)
   ↔ (∃ d, (ensure w).1 = Return d) ∧
     ∃ host port user password name target,
       db_host cfg = Some host ∧ db_port cfg = Some port ∧
       db_user cfg = Some user ∧ db_password cfg = Some password ∧
       db_name cfg = Some name ∧ target_db name = Return target ∧
       forallb formattable [host; port; user; target] = true)
  ∧ (∀ name,
       (∃ target, target_db name = Return target)
       ↔ is_str name = true
         ∨ ∃ k items shown,
             name = VSeq k items shown ∧ VStr s!"," ∉ items)
  ∧ (w_calls (mysql_backup cfg w).2 = w_calls w
     ∨ ∃ c, w_calls (mysql_backup cfg w).2 = c :: w_calls w).
Proof.
  split_and!.
  - split.
    + intros [c Hc].
      destruct (backup_called _ _ _ _ _ Hc)
        as (w1 & host & port & user & pw & name & t & Hens & Hh & Hp & Hu
            & Hpw & Hn & Ht & Hf1 & Hf2 & _).
      rewrite Hens. split; [by eauto|].
      exists host, port, user, pw, name, t. split_and!; try done.
      cbn [forallb] in *. rewrite !andb_true_r in Hf1.
      apply andb_true_iff in Hf2 as [-> Hf2].
      apply andb_true_iff in Hf2 as [-> Hf2].
      rewrite andb_true_r in Hf2. by rewrite Hf2, Hf1.
    + intros ([d Hd] & host & port & user & pw & name & t & Hh & Hp & Hu
              & Hpw & Hn & Ht & Hf).
      pose proof (ensure_only_fs BACKUP_DIR w) as (_ & _ & _ & Hcalls).
      destruct (ensure w) as [o w1] eqn:Hens. simpl in Hd, Hcalls. subst o.
      destruct (ensure_Return _ _ _ _ Hens) as [-> _].
      cbn [forallb] in Hf.
      apply andb_true_iff in Hf as [Hfh Hf].
      apply andb_true_iff in Hf as [Hfp Hf].
      apply andb_true_iff in Hf as [Hfu Hf].
      rewrite andb_true_r in Hf.
      rewrite (backup_run _ _ _ _ _ _ _ _ _ _ _ Hens Hh Hp Hu Hpw Hn Ht).
      * cbv zeta. simpl. rewrite Hcalls. by eexists.
      * cbn [forallb]. by rewrite Hf.
      * cbn [forallb]. by rewrite Hfh, Hfp, Hfu.
  - apply target_db_returns.
  - destruct (backup_not_called BACKUP_DIR spawn cfg w)
      as [(e & _ & H)|H]; auto.
Qed.

(** X9. An exception of [subprocess.run] that is not an [Exception] (a
    [KeyboardInterrupt], say) is not turned into a failure result: [backup]
    raises it. *)
Theorem backup_reraises_non_exception
    (cfg : db_config) (w : world) (c : call) (cl : exn_class) (msg : str) :
  w_calls (mysql_backup cfg w).2 = c :: w_calls w →
  call_result c = NotStarted cl msg →
  issubclass cl Exception = false →
  (mysql_backup cfg w).1 = Raise (Exn cl msg).
Proof.
  intros Hc Hr Hcl.
  destruct (backup_called _ _ _ _ _ Hc)
    as (w1 & host & port & user & pw & name & t & _ & _ & _ & _ & _ & _ & _
        & _ & _ & _ & ->).
  rewrite Hr. simpl. by rewrite Hcl.
Qed.

(** X10. A password that is not a string ([None], a number) never reaches a
    child: [subprocess.run] raises [TypeError] for the environment, no
    process is started, the file system stays as [ensure_backup_dir] left
    it, and [backup] returns a failure with the message of the
    [TypeError]. *)
Theorem backup_password_not_str
    (cfg : db_config) (w : world) (c : call) (password : pyval) :
  w_calls (mysql_backup cfg w).2 = c :: w_calls w →
  db_password cfg = Some password →
  is_str password = false →
  let msg :=
    s!"expected str, bytes or os.PathLike object, not "
    ++ type_name password in
  call_result c = NotStarted TypeError msg ∧
  (mysql_backup cfg w).1 = Return (false, None, msg) ∧
  w_fs (mysql_backup cfg w).2 = w_fs (ensure w).2.
Proof.
  intros Hc Hpw Hs.
  destruct (backup_called _ _ _ _ _ Hc)
    as (w1 & host & port & user & pw & name & t & Hens & _ & _ & _ & Hpw'
        & _ & _ & _ & _ & Hcall & Hrun).
  assert (pw = password) as -> by congruence.
  cbv zeta in Hcall, Hrun.
  unfold child in Hcall, Hrun.
  rewrite not_a_str_password in Hcall, Hrun by done.
  rewrite Hrun, Hens, Hcall. done.
Qed.

(** X11. With strings for the password and for [db_name], the child is what
    the operating system makes of the command, all of whose arguments are
    strings, in the environment of the parent with [MYSQL_PWD] set to the
    password (in place of a [MYSQL_PWD] the parent may have), on the file
    system that [ensure_backup_dir] left.  There the path of the backup
    directory exists: as a directory when the call made it; what was
    there before, be it a regular file, is taken as it is. *)
Theorem backup_child_sees
    (cfg : db_config) (w : world) (c : call) (password name : str) :
  w_calls (mysql_backup cfg w).2 = c :: w_calls w →
  db_password cfg = Some (VStr password) →
  db_name cfg = Some (VStr name) →
  ∃ argv,
    call_args c = VStr <$> argv ∧
    let env := <[s!"MYSQL_PWD" := password]> (w_environ w) in
    let fs1 := w_fs (ensure w).2 in
    (fs1 !! path_of_str BACKUP_DIR = w_fs w !! path_of_str BACKUP_DIR ∧
     is_Some (w_fs w !! path_of_str BACKUP_DIR)
     ∨ w_fs w !! path_of_str BACKUP_DIR = None ∧
       fs1 !! path_of_str BACKUP_DIR = Some (Dir true)) ∧
    call_result c = (spawn argv env fs1).1 ∧
    w_fs (mysql_backup cfg w).2 = (spawn argv env fs1).2.
Proof.
  intros Hc Hpw Hname.
  destruct (backup_called _ _ _ _ _ Hc)
    as (w1 & host & port & user & pw & name' & t & Hens & _ & _ & _ & Hpw'
        & Hn & Ht & _ & _ & Hcall & Hrun).
  assert (pw = VStr password) as -> by congruence.
  assert (name' = VStr name) as -> by congruence.
  destruct (target_db_str name) as [s Hs].
  rewrite Hs in Ht. injection Ht as <-.
  cbv zeta in Hcall, Hrun.
  set (fp := os_path_join BACKUP_DIR
               (filename (VStr s) (strftime_Ymd_HMS (w_clock w)))) in *.
  set (argv := [s!"mariadb-dump"; s!"-h" ++ fmt host; s!"-P" ++ fmt port;
                s!"-u" ++ fmt user; s!"--result-file=" ++ fp;
                s!"--single-transaction"; s]).
  change (cmd host port user fp (VStr s)) with (VStr <$> argv) in Hcall, Hrun.
  unfold child in Hcall, Hrun.
  rewrite not_a_str_strings, omap_as_str_fmap, omap_as_str_child_env
    in Hcall, Hrun.
  exists argv. rewrite Hrun, Hens, Hcall. simpl. split_and!; try done.
  destruct (ensure_Return _ _ _ _ Hens) as [_ [[-> ?]|[? ?]]]; auto.
Qed.

(** X12. What [backup] leaves alone: the clock, and the dicts that existed (a
    call adds one dict, the child's environment); and a run that calls no
    child leaves the file system as [ensure_backup_dir] left it, so a
    directory made for a config that is then turned down stays. *)
Theorem backup_frame (cfg : db_config) (w : world) :
  w_clock (mysql_backup cfg w).2 = w_clock w
  ∧ w_objs w `prefix_of` w_objs (mysql_backup cfg w).2
  ∧ (w_calls (mysql_backup cfg w).2 = w_calls w →
     w_fs (mysql_backup cfg w).2 = w_fs (ensure w).2 ∧
     w_objs (mysql_backup cfg w).2 = w_objs w).
Proof.
  pose proof (ensure_only_fs BACKUP_DIR w) as (_ & Hobjs & Hclk & _).
  destruct (backup_not_called BACKUP_DIR spawn cfg w)
    as [(e & -> & _)|[c Hc]]; simpl.
  - rewrite Hobjs, Hclk. done.
  - destruct (backup_called _ _ _ _ _ Hc)
      as (w1 & host & port & user & pw & name & t & _ & _ & _ & _ & _ & _
          & _ & _ & _ & _ & Hrun).
    cbv zeta in Hrun. split_and!.
    + by rewrite Hrun.
    + rewrite Hrun. simpl. by apply prefix_app_r.
    + intros Heq. rewrite Hc in Heq. by apply cons_neq in Heq.
Qed.

(** X7. Without a writable parent [ensure_backup_dir] raises: when the backup
    directory is missing and its parent is a file or a directory that is
    not writable, the call raises an [OSError] and changes nothing. *)
Theorem ensure_backup_dir_blocked
    (w : world) (parent : path) (name : str) (k : kind) :
  path_of_str BACKUP_DIR = parent ++ [name] →
  w_fs w !! (parent ++ [name]) = None →
  w_fs w !! parent = Some k → k ≠ Dir true →
  ∃ cl msg,
    ensure w = (Raise (Exn cl msg), w) ∧ issubclass cl OSError = true.
Proof.
  intros Hpath Hnone Hparent Hk.
  unfold ensure_backup_dir, os_path_exists, exists_at, os_makedirs.
  unfold mbind, M_bind. rewrite Hpath.
  rewrite bool_decide_false by (rewrite Hnone; by intros [? ?]). simpl.
  rewrite reverse_snoc. simpl. unfold mbind, M_bind, exists_at.
  rewrite reverse_involutive.
  rewrite bool_decide_true by (by rewrite Hparent). simpl.
  rewrite reverse_cons, reverse_involutive. unfold mkdir.
  rewrite Hnone, removelast_last, Hparent.
  destruct k as [[]|]; [done|by eexists _, _..].
Qed.

End more_backup.

(** * The further properties at sample runs *)


Lemma get_timestamp_sortable_witness :
  ∃ t1 t2,
    get_timestamp Sample.w = (Return t1, Sample.w) ∧
    get_timestamp Sample2.w_later = (Return t2, Sample2.w_later) ∧
    str_lt t1 t2 = true.
Proof.
  destruct (get_timestamp_sortable Sample.w Sample2.w_later)
    as (t1 & t2 & H1 & H2 & Hlt).
  - unfold clock_ok. simpl. lia.
  - unfold clock_ok. simpl. lia.
  - exists t1, t2. split_and!; [done|done|].
    apply Hlt. unfold datetime_lt. simpl. lia.
Defined.

Lemma filepath_inj_witness :
  s!"appdb" = s!"appdb" ∧ Sample.clock = Sample.clock.
Proof.
  apply (filepath_inj Sample.dir s!"appdb" s!"appdb"
           Sample.clock Sample.clock).
  - unfold clock_ok. simpl. lia.
  - unfold clock_ok. simpl. lia.
  - reflexivity.
Defined.

Lemma ensure_backup_dir_preserves_witness :
  w_fs (ensure_backup_dir Sample.dir Sample.w).2 !! [s!"app"]
  = Some (Dir true).
Proof.
  apply (ensure_backup_dir_preserves Sample.dir Sample.w [s!"app"] (Dir true)).
  by vm_compute.
Defined.

Lemma ensure_backup_dir_recursive_witness :
  ∃ w',
    ensure_backup_dir Sample2.deep_dir Sample.w
    = (Return Sample2.deep_dir, w') ∧
    w_fs w' !! [s!"srv"] = Some (Dir true) ∧
    w_fs w' !! [s!"srv"; s!"data"] = Some (Dir true) ∧
    w_fs w' !! [s!"srv"; s!"data"; s!"backups"] = Some (Dir true) ∧
    w_fs w' !! [s!"app"] = w_fs Sample.w !! [s!"app"].
Proof.
  destruct (ensure_backup_dir_recursive Sample2.deep_dir Sample.w
              [] [s!"srv"; s!"data"; s!"backups"])
    as (w' & Hens & Hmade & Hother).
  - by vm_compute.
  - done.
  - by vm_compute.
  - intros [|[|[|[|n]]]] Hn; simpl in Hn; try lia; by vm_compute.
  - exists w'. split_and!; [done|..].
    + apply (Hmade 1%nat). simpl. lia.
    + apply (Hmade 2%nat). simpl. lia.
    + apply (Hmade 3%nat). simpl. lia.
    + apply Hother. intros [|[|[|n]]] Hn; by vm_compute.
Defined.

Lemma ensure_backup_dir_blocked_witness :
  ∃ cl msg,
    ensure_backup_dir Sample.dir Sample.w_readonly
    = (Raise (Exn cl msg), Sample.w_readonly) ∧
    issubclass cl OSError = true.
Proof.
  apply (ensure_backup_dir_blocked Sample.dir Sample.w_readonly
           [s!"app"] s!"backups" (Dir false)); by vm_compute.
Defined.

Lemma backup_calls_iff_witness :
  (∃ c, w_calls (backup Sample.dir Sample.denied MySQLBackup
                   (Sample.config VNone (VStr s!"appdb")) Sample.w).2
        = c :: w_calls Sample.w)
  ∧ ¬ ∃ c, w_calls (backup Sample.dir Sample.denied MySQLBackup
                      Sample.cfg_no_user Sample.w).2
           = c :: w_calls Sample.w.
Proof.
  split.
  - apply (proj1 (backup_calls_iff Sample.dir Sample.denied
                    (Sample.config VNone (VStr s!"appdb")) Sample.w)).
    split; [eexists; by vm_compute|].
    exists (VStr s!"localhost"), (VInt 3306), (VStr s!"root"), VNone,
      (VStr s!"appdb"), (VStr s!"appdb").
    split_and!; try done; by vm_compute.
  - intros H.
    apply (proj1 (backup_calls_iff Sample.dir Sample.denied
                    Sample.cfg_no_user Sample.w)) in H
      as (_ & host & port & user & _ & _ & _ & _ & _ & Hu & _).
    discriminate Hu.
Defined.

Lemma backup_reraises_non_exception_witness :
  (backup Sample.dir Sample2.interrupted MySQLBackup Sample.cfg Sample.w).1
  = Raise (Exn KeyboardInterrupt []).
Proof.
  refine (backup_reraises_non_exception Sample.dir Sample2.interrupted
            Sample.cfg Sample.w _ KeyboardInterrupt [] _ _ _);
    by vm_compute.
Defined.

Lemma backup_password_not_str_witness :
  (backup Sample.dir Sample.exit0 MySQLBackup
     (Sample.config VNone (VStr s!"appdb")) Sample.w).1
  = Return (false, None,
            s!"expected str, bytes or os.PathLike object, not NoneType").
Proof.
  refine (proj1 (proj2 (backup_password_not_str Sample.dir Sample.exit0
                          (Sample.config VNone (VStr s!"appdb")) Sample.w
                          _ VNone _ _ _)));
    by vm_compute.
Defined.

Lemma backup_child_sees_witness :
  ∃ c, w_calls (backup Sample.dir Sample2.echo_pwd MySQLBackup
                  Sample.cfg Sample2.w_with_pwd).2 = [c] ∧
       call_result c = Exited 1 [] s!"secret".
Proof.
  eexists. split; [by vm_compute|].
  edestruct (backup_child_sees Sample.dir Sample2.echo_pwd Sample.cfg
               Sample2.w_with_pwd) as (argv & _ & _ & Hres & _);
    [by vm_compute|done|done|].
  rewrite Hres. unfold Sample2.echo_pwd. simpl.
  by rewrite lookup_insert_eq.
Defined.

Lemma backup_frame_witness :
  w_fs (backup Sample.dir Sample.exit0 MySQLBackup
          Sample.cfg_no_user Sample.w).2 !! path_of_str Sample.dir
  = Some (Dir true)
  ∧ w_objs (backup Sample.dir Sample.exit0 MySQLBackup
              Sample.cfg_no_user Sample.w).2 = [].
Proof.
  destruct (proj2 (proj2 (backup_frame Sample.dir Sample.exit0
                            Sample.cfg_no_user Sample.w)))
    as [Hfs Hobjs]; [by vm_compute|].
  split; [|exact Hobjs]. rewrite Hfs. by vm_compute.
Defined.
